(** * CyberRiskQuant: the FAIR risk model and its Monte Carlo engine

    A shallow embedding of [models/fair_model.py] and
    [models/monte_carlo.py], and the properties of the engine proved on it.

    Numbers are Python floats, that is IEEE 754 binary64 values: they are
    modelled by Rocq's primitive floats, whose operations are the hardware
    ones (a single NaN, signed zeros, infinities).  Strings are ASCII text.
    Exceptions are values of [exn]; code that may raise returns [exn + A].
    The two libraries the engine calls into, [numpy.random] and [pandas],
    are interfaces ([NumpyRandom], [Pandas]): the theorems hold for every
    implementation of them. *)

From Stdlib Require Import Floats ZArith Lia Bool String Ascii List.
From stdpp Require Import base option list strings gmap.
Import ListNotations.

Local Open Scope string_scope.
Local Open Scope float_scope.

(** Decimal float literals are read as Python reads them: rounded to the
    nearest binary64 value. *)
Set Warnings "-inexact-float".

(** ** Python values the model needs *)

(** The exceptions the two modules raise or let through. *)
Inductive exn :=
  | ValueError (msg : string)
  | TypeError (msg : string)
  | KeyError (key : string)
  | AttributeError (msg : string)
  | ZeroDivisionError (msg : string)
  | OverflowError (msg : string).

(** [str.lower()] on ASCII text: 'A'..'Z' become 'a'..'z'. *)
Definition lower_ascii (c : ascii) : ascii :=
  let n := nat_of_ascii c in
  if (65 <=? n)%nat && (n <=? 90)%nat then ascii_of_nat (n + 32) else c.

Fixpoint lower (s : string) : string :=
  match s with
  | EmptyString => EmptyString
  | String c s' => String (lower_ascii c) (lower s')
  end.

(** [x in [a, b, ...]] on strings. *)
Definition str_in (x : string) (l : list string) : bool :=
  existsb (String.eqb x) l.

(** Python's [/] on floats raises on a zero divisor. *)
Definition py_div (x y : float) : exn + float :=
  if y =? 0 then inl (ZeroDivisionError "float division by zero")
  else inr (x / y).

(** Python's [x ** 2] on a float: the square, [OverflowError] when a finite
    [x] has a square out of range. *)
Definition py_pow2 (x : float) : exn + float :=
  let y := x * x in
  if (y =? infinity) && negb (abs x =? infinity)
  then inl (OverflowError "(34, 'Numerical result out of range')")
  else inr y.

(** Sequencing of computations that may raise. *)
Definition bind_exn {A B : Type} (c : exn + A) (k : A -> exn + B) : exn + B :=
  match c with
  | inl e => inl e
  | inr a => k a
  end.

Notation "'try' x <- c ; k" := (bind_exn c (fun x => k))
  (at level 10, x name, c at level 100, k at level 200).

(** ** models/fair_model.py *)

(** The sampler reads [param.min_value], [param.max_value],
    [param.most_likely], [param.distribution] and may assign
    [param.most_likely], whichever of the three input classes [param] is:
    this is the interface it relies on. *)
Class Param (P : Type) := {
  min_value : P -> float;
  max_value : P -> float;
  most_likely : P -> option float;
  distribution : P -> string;
  set_most_likely : option float -> P -> P;
  min_value_set : forall v p, min_value (set_most_likely v p) = min_value p;
  max_value_set : forall v p, max_value (set_most_likely v p) = max_value p;
  most_likely_set : forall v p, most_likely (set_most_likely v p) = v;
  distribution_set : forall v p, distribution (set_most_likely v p) = distribution p
}.

(** Threat Event Frequency input parameters. *)
Module TEFInput.

Record t := mk {
  min_value : float;
  max_value : float;
  most_likely : option float;
  distribution : string
}.

Definition set_most_likely (v : option float) (self : t) : t :=
  mk (min_value self) (max_value self) v (distribution self).

Definition __post_init__ (self : t) : exn + t :=
  if min_value self <? 0 then
    inl (ValueError "Minimum value cannot be negative")
  else if max_value self <? min_value self then
    inl (ValueError "Maximum value must be greater than minimum value")
  else if str_in (distribution self) ["triangular"; "pert"]
          && bool_decide (most_likely self = None) then
    inr (set_most_likely (Some ((min_value self + max_value self) / 2)) self)
  else inr self.

(** The dataclass constructor: store the four fields, then validate. *)
Definition new (min_value max_value : float) (most_likely : option float)
    (distribution : string) : exn + t :=
  __post_init__ (mk min_value max_value most_likely distribution).

End TEFInput.

(** Vulnerability input parameters (probability of a threat event becoming
    a loss event). *)
Module VulnerabilityInput.

Record t := mk {
  min_value : float;
  max_value : float;
  most_likely : option float;
  distribution : string
}.

Definition set_most_likely (v : option float) (self : t) : t :=
  mk (min_value self) (max_value self) v (distribution self).

Definition __post_init__ (self : t) : exn + t :=
  if negb ((0 <=? min_value self) && (min_value self <=? 1)) then
    inl (ValueError "Minimum probability must be between 0 and 1")
  else if negb ((0 <=? max_value self) && (max_value self <=? 1)) then
    inl (ValueError "Maximum probability must be between 0 and 1")
  else if max_value self <? min_value self then
    inl (ValueError "Maximum value must be greater than minimum value")
  else if str_in (distribution self) ["triangular"; "pert"]
          && bool_decide (most_likely self = None) then
    inr (set_most_likely (Some ((min_value self + max_value self) / 2)) self)
  else inr self.

Definition new (min_value max_value : float) (most_likely : option float)
    (distribution : string) : exn + t :=
  __post_init__ (mk min_value max_value most_likely distribution).

End VulnerabilityInput.

(** Loss magnitude input parameters. *)
Module LossInput.

Record t := mk {
  min_value : float;
  max_value : float;
  most_likely : option float;
  distribution : string
}.

Definition set_most_likely (v : option float) (self : t) : t :=
  mk (min_value self) (max_value self) v (distribution self).

Definition __post_init__ (self : t) : exn + t :=
  if min_value self <? 0 then
    inl (ValueError "Minimum value cannot be negative")
  else if max_value self <? min_value self then
    inl (ValueError "Maximum value must be greater than minimum value")
  else if str_in (distribution self) ["triangular"; "pert"]
          && bool_decide (most_likely self = None) then
    inr (set_most_likely (Some ((min_value self + max_value self) / 2)) self)
  else inr self.

Definition new (min_value max_value : float) (most_likely : option float)
    (distribution : string) : exn + t :=
  __post_init__ (mk min_value max_value most_likely distribution).

End LossInput.

#[export] Instance TEFInput_Param : Param TEFInput.t := {
  min_value := TEFInput.min_value;
  max_value := TEFInput.max_value;
  most_likely := TEFInput.most_likely;
  distribution := TEFInput.distribution;
  set_most_likely := TEFInput.set_most_likely;
  min_value_set := fun _ _ => eq_refl;
  max_value_set := fun _ _ => eq_refl;
  most_likely_set := fun _ _ => eq_refl;
  distribution_set := fun _ _ => eq_refl
}.

#[export] Instance VulnerabilityInput_Param : Param VulnerabilityInput.t := {
  min_value := VulnerabilityInput.min_value;
  max_value := VulnerabilityInput.max_value;
  most_likely := VulnerabilityInput.most_likely;
  distribution := VulnerabilityInput.distribution;
  set_most_likely := VulnerabilityInput.set_most_likely;
  min_value_set := fun _ _ => eq_refl;
  max_value_set := fun _ _ => eq_refl;
  most_likely_set := fun _ _ => eq_refl;
  distribution_set := fun _ _ => eq_refl
}.

#[export] Instance LossInput_Param : Param LossInput.t := {
  min_value := LossInput.min_value;
  max_value := LossInput.max_value;
  most_likely := LossInput.most_likely;
  distribution := LossInput.distribution;
  set_most_likely := LossInput.set_most_likely;
  min_value_set := fun _ _ => eq_refl;
  max_value_set := fun _ _ => eq_refl;
  most_likely_set := fun _ _ => eq_refl;
  distribution_set := fun _ _ => eq_refl
}.

Set Warnings "-register-all".

(** What [to_dict] produces and [from_dict] consumes: [None], floats,
    strings and dictionaries with string keys, kept in insertion order. *)
Inductive pyval :=
  | PyNone
  | PyFloat (x : float)
  | PyStr (s : string)
  | PyDict (items : list (string * pyval)).

(** [d[key]]. *)
Definition getitem (d : pyval) (key : string) : exn + pyval :=
  match d with
  | PyDict items =>
      match find (fun kv => String.eqb (fst kv) key) items with
      | Some kv => inr (snd kv)
      | None => inl (KeyError key)
      end
  | PyNone => inl (TypeError "'NoneType' object is not subscriptable")
  | PyFloat _ => inl (TypeError "'float' object is not subscriptable")
  | PyStr _ => inl (TypeError "string indices must be integers")
  end.

(** Truth value of an object in a condition. *)
Definition truthy (v : pyval) : bool :=
  match v with
  | PyNone => false
  | PyFloat x => negb (x =? 0)
  | PyStr s => negb (String.eqb s "")
  | PyDict items => match items with [] => false | _ :: _ => true end
  end.

(** The fields of the model are typed as the source annotates them
    ([float], [Optional[float]], [str]).  Python does not check the
    annotations: an entry of another type is stored as it is, and fails
    later or not at all.  Here such an entry is reported as a [TypeError]
    once the lookups of its call are done (a key missing in that call is
    reported first, as in the source): [from_dict] agrees with the source
    on dictionaries whose entries have the annotated types. *)
Definition as_float (v : pyval) : exn + float :=
  match v with
  | PyFloat x => inr x
  | _ => inl (TypeError "expected a float")
  end.

Definition as_optional_float (v : pyval) : exn + option float :=
  match v with
  | PyNone => inr None
  | PyFloat x => inr (Some x)
  | _ => inl (TypeError "expected a float or None")
  end.

Definition as_str (v : pyval) : exn + string :=
  match v with
  | PyStr s => inr s
  | _ => inl (TypeError "expected a str")
  end.

Definition of_optional_float (v : option float) : pyval :=
  match v with
  | Some x => PyFloat x
  | None => PyNone
  end.

(** Implementation of the FAIR (Factor Analysis of Information Risk) model. *)
Module FAIRModel.

Record t := mk {
  name : string;
  description : string;
  tef : option TEFInput.t;
  vulnerability : option VulnerabilityInput.t;
  loss_magnitude : option LossInput.t
}.

Definition __init__ (name description : string) : t :=
  mk name description None None None.

Definition set_threat_event_frequency (self : t) (tef : TEFInput.t) : t :=
  mk (name self) (description self) (Some tef)
     (vulnerability self) (loss_magnitude self).

Definition set_vulnerability (self : t) (vulnerability : VulnerabilityInput.t) : t :=
  mk (name self) (description self) (tef self)
     (Some vulnerability) (loss_magnitude self).

Definition set_loss_magnitude (self : t) (loss_magnitude : LossInput.t) : t :=
  mk (name self) (description self) (tef self)
     (vulnerability self) (Some loss_magnitude).

(** Validate that all required inputs are set. *)
Definition validate_inputs (self : t) : exn + bool :=
  match tef self with
  | None => inl (ValueError "Threat Event Frequency not set")
  | Some _ =>
    match vulnerability self with
    | None => inl (ValueError "Vulnerability not set")
    | Some _ =>
      match loss_magnitude self with
      | None => inl (ValueError "Loss Magnitude not set")
      | Some _ => inr true
      end
    end
  end.

Definition calculate_loss_event_frequency (tef_value vulnerability_value : float)
  : float := tef_value * vulnerability_value.

Definition calculate_risk (lef loss_magnitude : float) : float :=
  lef * loss_magnitude.

Definition calculate_single_loss_expectancy (loss_magnitude : float) : float :=
  loss_magnitude.

(** Convert the model to a dictionary for storage/serialization.  An
    instance of one of the input classes is always true in a condition,
    so [... if self.tef else None] tests for [None]. *)
Definition to_dict (self : t) : pyval :=
  PyDict [
    ("name", PyStr (name self));
    ("description", PyStr (description self));
    ("tef",
      match tef self with
      | Some tef =>
          PyDict [
            ("min_value", PyFloat (TEFInput.min_value tef));
            ("max_value", PyFloat (TEFInput.max_value tef));
            ("most_likely", of_optional_float (TEFInput.most_likely tef));
            ("distribution", PyStr (TEFInput.distribution tef)) ]
      | None => PyNone
      end);
    ("vulnerability",
      match vulnerability self with
      | Some vulnerability =>
          PyDict [
            ("min_value", PyFloat (VulnerabilityInput.min_value vulnerability));
            ("max_value", PyFloat (VulnerabilityInput.max_value vulnerability));
            ("most_likely",
              of_optional_float (VulnerabilityInput.most_likely vulnerability));
            ("distribution", PyStr (VulnerabilityInput.distribution vulnerability)) ]
      | None => PyNone
      end);
    ("loss_magnitude",
      match loss_magnitude self with
      | Some loss_magnitude =>
          PyDict [
            ("min_value", PyFloat (LossInput.min_value loss_magnitude));
            ("max_value", PyFloat (LossInput.max_value loss_magnitude));
            ("most_likely", of_optional_float (LossInput.most_likely loss_magnitude));
            ("distribution", PyStr (LossInput.distribution loss_magnitude)) ]
      | None => PyNone
      end) ].

(** Create a FAIR model from a dictionary.  The arguments of a call are
    looked up first, in order, then the call is made. *)
Definition from_dict (data : pyval) : exn + t :=
  try v_name <- getitem data "name";
  try v_description <- getitem data "description";
  try name <- as_str v_name;
  try description <- as_str v_description;
  let model := __init__ name description in
  try d_tef <- getitem data "tef";
  try model <-
    (if truthy d_tef then
       try v_min <- getitem d_tef "min_value";
       try v_max <- getitem d_tef "max_value";
       try v_ml <- getitem d_tef "most_likely";
       try v_dist <- getitem d_tef "distribution";
       try min_value <- as_float v_min;
       try max_value <- as_float v_max;
       try most_likely <- as_optional_float v_ml;
       try distribution <- as_str v_dist;
       try tef <- TEFInput.new min_value max_value most_likely distribution;
       inr (set_threat_event_frequency model tef)
     else inr model);
  try d_vulnerability <- getitem data "vulnerability";
  try model <-
    (if truthy d_vulnerability then
       try v_min <- getitem d_vulnerability "min_value";
       try v_max <- getitem d_vulnerability "max_value";
       try v_ml <- getitem d_vulnerability "most_likely";
       try v_dist <- getitem d_vulnerability "distribution";
       try min_value <- as_float v_min;
       try max_value <- as_float v_max;
       try most_likely <- as_optional_float v_ml;
       try distribution <- as_str v_dist;
       try vulnerability <-
         VulnerabilityInput.new min_value max_value most_likely distribution;
       inr (set_vulnerability model vulnerability)
     else inr model);
  try d_loss_magnitude <- getitem data "loss_magnitude";
  try model <-
    (if truthy d_loss_magnitude then
       try v_min <- getitem d_loss_magnitude "min_value";
       try v_max <- getitem d_loss_magnitude "max_value";
       try v_ml <- getitem d_loss_magnitude "most_likely";
       try v_dist <- getitem d_loss_magnitude "distribution";
       try min_value <- as_float v_min;
       try max_value <- as_float v_max;
       try most_likely <- as_optional_float v_ml;
       try distribution <- as_str v_dist;
       try loss_magnitude <- LossInput.new min_value max_value most_likely distribution;
       inr (set_loss_magnitude model loss_magnitude)
     else inr model);
  inr model.

End FAIRModel.

(** ** The libraries the engine calls *)

(** One-dimensional float arrays are lists.  [np.ones(size)], an array times
    a scalar, a scalar plus an array and the element-wise product of two
    arrays are defined here; the product needs equal shapes (a length-one
    operand is never met: every array of the engine has length [size]). *)
Definition np_ones (size : nat) : list float := replicate size 1.

Definition np_scale (a : list float) (c : float) : list float :=
  (fun x => x * c) <$> a.

Definition np_shift (c : float) (a : list float) : list float :=
  (fun x => c + x) <$> a.

Definition np_multiply (a b : list float) : exn + list float :=
  if (length a =? length b)%nat then inr (zip_with PrimFloat.mul a b)
  else inl (ValueError "operands could not be broadcast together").

(** [numpy.random] and [np.log].  A draw is given the generator state and
    returns the new one together with an array of [size] values, or the
    exception numpy raises on arguments it rejects ([most_likely] reaches
    [triangular] as it is stored, [None] included). *)
Class NumpyRandom := {
  RandomState : Type;
  np_random_uniform :
    float -> float -> nat -> RandomState -> (exn + list float) * RandomState;
  np_random_triangular :
    float -> option float -> float -> nat -> RandomState ->
    (exn + list float) * RandomState;
  np_random_beta :
    float -> float -> nat -> RandomState -> (exn + list float) * RandomState;
  np_random_lognormal :
    float -> float -> nat -> RandomState -> (exn + list float) * RandomState;
  np_log : float -> float;
  np_random_uniform_shape : forall low high size g a g',
    np_random_uniform low high size g = (inr a, g') -> length a = size;
  np_random_triangular_shape : forall left mode right size g a g',
    np_random_triangular left mode right size g = (inr a, g') -> length a = size;
  np_random_beta_shape : forall a b size g x g',
    np_random_beta a b size g = (inr x, g') -> length x = size;
  np_random_lognormal_shape : forall mean sigma size g a g',
    np_random_lognormal mean sigma size g = (inr a, g') -> length a = size
}.

(** The reductions of a float [pandas.Series] the engine uses. *)
Class Pandas := {
  series_min : list float -> float;
  series_max : list float -> float;
  series_mean : list float -> float;
  series_median : list float -> float;
  series_std : list float -> float;
  series_quantile : list float -> float -> exn + float
}.

(** A [pandas.DataFrame] of float columns: the named columns in order, all
    of one length. *)
Definition DataFrame := list (string * list float).

(** [pd.DataFrame({name: array, ...})]. *)
Definition pd_DataFrame (data : list (string * list float)) : exn + DataFrame :=
  match data with
  | [] => inr []
  | (_, c) :: rest =>
      if forallb (fun kv => (length (snd kv) =? length c)%nat) rest
      then inr data
      else inl (ValueError "All arrays must be of the same length")
  end.

(** [len(df)]. *)
Definition nrows (df : DataFrame) : nat :=
  match df with
  | [] => 0
  | (_, c) :: _ => length c
  end.

(** [df[name]]. *)
Definition column (df : DataFrame) (name : string) : exn + list float :=
  match find (fun kv => String.eqb (fst kv) name) df with
  | Some kv => inr (snd kv)
  | None => inl (KeyError name)
  end.

(** ** models/monte_carlo.py *)

(** Performs Monte Carlo simulations for the FAIR model. *)
Module MonteCarloSimulation.

Record t := mk {
  fair_model : FAIRModel.t;
  num_simulations : nat;
  results : option DataFrame
}.

Definition __init__ (fair_model : FAIRModel.t) (num_simulations : nat) : t :=
  mk fair_model num_simulations None.

Section Sampling.
Context {np : NumpyRandom}.

(** The outcome of a call that works on an object of type [S] and on the
    random generator: what it returns or raises, and both afterwards. *)
Definition outcome (S A : Type) : Type := (exn + A) * (S * RandomState).

Definition on {S A : Type} (s : S) (r : (exn + A) * RandomState)
  : outcome S A := (r.1, (s, r.2)).

(** Generate random samples from the specified distribution. *)
Definition _generate_distribution_sample {P : Type} `{Param P}
    (param : P) (size : nat) (g : RandomState) : outcome P (list float) :=
  let distribution := lower (distribution param) in
  if String.eqb distribution "uniform" then
    on param (np_random_uniform (min_value param) (max_value param) size g)
  else if String.eqb distribution "triangular" then
    on param (np_random_triangular
                (min_value param) (most_likely param) (max_value param) size g)
  else if String.eqb distribution "pert" then
    let '(param, most_likely) :=
      match most_likely param with
      | None =>
          let m := (min_value param + max_value param) / 2 in
          (set_most_likely (Some m) param, m)
      | Some m => (param, m)
      end in
    let range_val := max_value param - min_value param in
    if range_val =? 0 then
      (inr (np_scale (np_ones size) (min_value param)), (param, g))
    else
      let mu := (min_value param + 4 * most_likely + max_value param) / 6 in
      if (mu =? min_value param) || (mu =? max_value param) then
        (inr (np_scale (np_ones size) mu), (param, g))
      else
        let shape :=
          try sq <- py_pow2 (max_value param - min_value param);
          try v <- py_div ((mu - min_value param) * (max_value param - mu)) sq;
          try q <- py_div (mu - min_value param) (max_value param - min_value param);
          try r <- py_div 1 v;
          let w := q * (r - 1) in
          let alpha := w in
          try q' <- py_div (mu - min_value param) (max_value param - min_value param);
          try r' <- py_div 1 v;
          let beta := (1 - q') * (r' - 1) in
          inr (alpha, beta) in
        match shape with
        | inl e => (inl e, (param, g))
        | inr (alpha, beta) =>
            let '(r, g) := np_random_beta alpha beta size g in
            match r with
            | inl e => (inl e, (param, g))
            | inr beta_samples =>
                (inr (np_shift (min_value param) (np_scale beta_samples range_val)),
                 (param, g))
            end
        end
  else if String.eqb distribution "lognormal" then
    let ln_min := np_log (min_value param) in
    let ln_max := np_log (max_value param) in
    let z_95 := 1.645 in
    let sigma := (ln_max - ln_min) / (2 * z_95) in
    let mu := (ln_min + ln_max) / 2 in
    on param (np_random_lognormal mu sigma size g)
  else
    on param (np_random_uniform (min_value param) (max_value param) size g).

(** [self.fair_model.tef] and its two siblings are handed to the sampler
    by reference: what the sampler assigns to the parameter is seen
    through the model afterwards. *)
Definition with_tef (self : t) (tef : TEFInput.t) : t :=
  mk (FAIRModel.set_threat_event_frequency (fair_model self) tef)
     (num_simulations self) (results self).

Definition with_vulnerability (self : t) (v : VulnerabilityInput.t) : t :=
  mk (FAIRModel.set_vulnerability (fair_model self) v)
     (num_simulations self) (results self).

Definition with_loss_magnitude (self : t) (l : LossInput.t) : t :=
  mk (FAIRModel.set_loss_magnitude (fair_model self) l)
     (num_simulations self) (results self).

Definition no_attribute : exn :=
  AttributeError "'NoneType' object has no attribute 'distribution'".

Definition sample_tef (self : t) (g : RandomState) : outcome t (list float) :=
  match FAIRModel.tef (fair_model self) with
  | None => (inl no_attribute, (self, g))
  | Some tef =>
      let '(r, (tef, g)) :=
        _generate_distribution_sample tef (num_simulations self) g in
      (r, (with_tef self tef, g))
  end.

Definition sample_vulnerability (self : t) (g : RandomState)
  : outcome t (list float) :=
  match FAIRModel.vulnerability (fair_model self) with
  | None => (inl no_attribute, (self, g))
  | Some vulnerability =>
      let '(r, (vulnerability, g)) :=
        _generate_distribution_sample vulnerability (num_simulations self) g in
      (r, (with_vulnerability self vulnerability, g))
  end.

Definition sample_loss_magnitude (self : t) (g : RandomState)
  : outcome t (list float) :=
  match FAIRModel.loss_magnitude (fair_model self) with
  | None => (inl no_attribute, (self, g))
  | Some loss_magnitude =>
      let '(r, (loss_magnitude, g)) :=
        _generate_distribution_sample loss_magnitude (num_simulations self) g in
      (r, (with_loss_magnitude self loss_magnitude, g))
  end.

(** Sequencing of calls on the simulation object. *)
Definition and_then {A B : Type} (c : outcome t A)
    (k : A -> t -> RandomState -> outcome t B) : outcome t B :=
  match c with
  | (inl e, s) => (inl e, s)
  | (inr a, (self, g)) => k a self g
  end.

Definition raising {A : Type} (c : exn + A) (self : t) (g : RandomState)
  : outcome t A := (c, (self, g)).

(** Run the Monte Carlo simulation and store the results. *)
Definition run_simulation (self : t) (g : RandomState) : outcome t DataFrame :=
  and_then (raising (FAIRModel.validate_inputs (fair_model self)) self g)
    (fun _ self g =>
  and_then (sample_tef self g) (fun tef_samples self g =>
  and_then (sample_vulnerability self g) (fun vulnerability_samples self g =>
  and_then (sample_loss_magnitude self g) (fun loss_magnitude_samples self g =>
  and_then (raising (np_multiply tef_samples vulnerability_samples) self g)
    (fun lef_samples self g =>
  and_then (raising (np_multiply lef_samples loss_magnitude_samples) self g)
    (fun ale_samples self g =>
  and_then
    (raising (pd_DataFrame [
       ("TEF", tef_samples);
       ("Vulnerability", vulnerability_samples);
       ("LEF", lef_samples);
       ("Loss Magnitude", loss_magnitude_samples);
       ("ALE", ale_samples) ]) self g)
    (fun df self g =>
  let self := mk (fair_model self) (num_simulations self) (Some df) in
  (inr df, (self, g))))))))).

End Sampling.

Section Statistics.
Context {pd : Pandas}.

Definition not_run : exn :=
  ValueError "Simulation hasn't been run yet. Call run_simulation() first.".

(** Calculate summary statistics from the simulation results. *)
Definition get_summary_statistics (self : t) : exn + pyval :=
  match results self with
  | None => inl not_run
  | Some results =>
      try ale <- column results "ALE";
      try p10 <- series_quantile ale 0.1;
      try p25 <- series_quantile ale 0.25;
      try p75 <- series_quantile ale 0.75;
      try p90 <- series_quantile ale 0.9;
      try p95 <- series_quantile ale 0.95;
      try p99 <- series_quantile ale 0.99;
      let ale_percentiles := PyDict [
        ("min", PyFloat (series_min ale));
        ("max", PyFloat (series_max ale));
        ("mean", PyFloat (series_mean ale));
        ("median", PyFloat (series_median ale));
        ("std", PyFloat (series_std ale));
        ("percentile_10", PyFloat p10);
        ("percentile_25", PyFloat p25);
        ("percentile_75", PyFloat p75);
        ("percentile_90", PyFloat p90);
        ("percentile_95", PyFloat p95);
        ("percentile_99", PyFloat p99) ] in
      try lef <- column results "LEF";
      let lef_stats := PyDict [
        ("min", PyFloat (series_min lef));
        ("max", PyFloat (series_max lef));
        ("mean", PyFloat (series_mean lef));
        ("median", PyFloat (series_median lef));
        ("std", PyFloat (series_std lef)) ] in
      try lm <- column results "Loss Magnitude";
      let lm_stats := PyDict [
        ("min", PyFloat (series_min lm));
        ("max", PyFloat (series_max lm));
        ("mean", PyFloat (series_mean lm));
        ("median", PyFloat (series_median lm));
        ("std", PyFloat (series_std lm)) ] in
      inr (PyDict [
        ("ALE", ale_percentiles);
        ("LEF", lef_stats);
        ("Loss_Magnitude", lm_stats) ])
  end.

(** Calculate the Value at Risk (VaR) at the specified confidence level. *)
Definition get_value_at_risk (self : t) (confidence_level : float) : exn + float :=
  match results self with
  | None => inl not_run
  | Some results =>
      try ale <- column results "ALE";
      series_quantile ale confidence_level
  end.

End Statistics.

End MonteCarloSimulation.

(** ** Executable stand-ins for the two libraries

    Used to run the engine on concrete inputs.  The generator is a counter
    whose [i]-th unit draw is fixed; the draws keep numpy's argument checks
    and array shapes, [uniform] and [triangular] follow numpy's formulas,
    [lognormal] exponentiates an approximate normal deviate and [beta]
    returns the unit draws themselves whatever the shape parameters.  The
    reductions follow pandas: missing values (NaN) are skipped and the
    reduction of an empty column is NaN. *)
Module Standin.

Definition float_of_Z (z : Z) : float :=
  if (z <? 0)%Z then - of_uint63 (Uint63.of_Z (- z))
  else of_uint63 (Uint63.of_Z z).

Definition is_nan (x : float) : bool := negb (x =? x).

Definition is_finite (x : float) : bool :=
  negb (is_nan x) && negb (abs x =? infinity).

Fixpoint atanh_series (t p : float) (k : float) (terms : nat) : float :=
  match terms with
  | O => 0
  | S terms' => p / k + atanh_series t (p * t * t) (k + 2) terms'
  end.

Definition log (x : float) : float :=
  if is_nan x || (x <? 0) then nan
  else if x =? 0 then neg_infinity
  else if x =? infinity then infinity
  else
    let '(m, e) := frshiftexp x in
    let t := (m - 1) / (m + 1) in
    2 * atanh_series t t 1 24
    + float_of_Z (Uint63.to_Z e - FloatOps.shift) * 0.6931471805599453.

Fixpoint exp_series (r p : float) (k : float) (terms : nat) : float :=
  match terms with
  | O => 0
  | S terms' => p + exp_series r (p * r / k) (k + 1) terms'
  end.

Definition exp (y : float) : float :=
  let e := exp_series (y / 1024) 1 1 20 in
  Nat.iter 10 (fun z => z * z) e.

Definition unit_draw (i : Z) : float :=
  float_of_Z ((1103515245 * i + 12345) mod 2147483648) / 2147483648.

Definition unit_draws (size : nat) (g : Z) : list float :=
  (fun k => unit_draw (g + Z.of_nat k)) <$> seq 0 size.

Definition uniform (low high : float) (size : nat) (g : Z)
  : (exn + list float) * Z :=
  if negb (is_finite (high - low)) then
    (inl (OverflowError "Range exceeds valid bounds"), g)
  else
    (inr ((fun u => low + (high - low) * u) <$> unit_draws size g),
     (g + Z.of_nat size)%Z).

Definition triangular (left : float) (mode : option float) (right : float)
    (size : nat) (g : Z) : (exn + list float) * Z :=
  match mode with
  | None => (inl (TypeError "must be real number, not NoneType"), g)
  | Some mode =>
      if mode <? left then (inl (ValueError "left > mode"), g)
      else if right <? mode then (inl (ValueError "mode > right"), g)
      else if left =? right then (inl (ValueError "left == right"), g)
      else
        let base := right - left in
        let leftbase := mode - left in
        let ratio := leftbase / base in
        let leftprod := leftbase * base in
        let rightprod := (right - mode) * base in
        (inr ((fun u =>
                 if u <=? ratio then left + sqrt (u * leftprod)
                 else right - sqrt ((1 - u) * rightprod))
              <$> unit_draws size g),
         (g + Z.of_nat size)%Z)
  end.

Definition beta (a b : float) (size : nat) (g : Z) : (exn + list float) * Z :=
  if a <=? 0 then (inl (ValueError "a <= 0"), g)
  else if b <=? 0 then (inl (ValueError "b <= 0"), g)
  else (inr (unit_draws size g), (g + Z.of_nat size)%Z).

Definition normal_deviate (g : Z) : float :=
  foldr PrimFloat.add 0 (unit_draws 12 g) - 6.

Definition lognormal (mean sigma : float) (size : nat) (g : Z)
  : (exn + list float) * Z :=
  if sigma <? 0 then (inl (ValueError "sigma < 0"), g)
  else
    (inr ((fun k => exp (mean + sigma * normal_deviate (g + 12 * Z.of_nat k)))
          <$> seq 0 size),
     (g + 12 * Z.of_nat size)%Z).

Lemma length_unit_draws size g : length (unit_draws size g) = size.
Proof. unfold unit_draws. by rewrite length_fmap, length_seq. Qed.

Lemma uniform_shape low high size g a g' :
  uniform low high size g = (inr a, g') -> length a = size.
Proof.
  unfold uniform. destruct (negb _); intros [= <- _].
  by rewrite length_fmap, length_unit_draws.
Qed.

Lemma triangular_shape left mode right size g a g' :
  triangular left mode right size g = (inr a, g') -> length a = size.
Proof.
  unfold triangular. destruct mode as [mode|]; [|discriminate].
  repeat (destruct (_ : bool); [discriminate|]).
  intros [= <- _]. by rewrite length_fmap, length_unit_draws.
Qed.

Lemma beta_shape a b size g x g' :
  beta a b size g = (inr x, g') -> length x = size.
Proof.
  unfold beta. repeat (destruct (_ : bool); [discriminate|]).
  intros [= <- _]. apply length_unit_draws.
Qed.

Lemma lognormal_shape mean sigma size g a g' :
  lognormal mean sigma size g = (inr a, g') -> length a = size.
Proof.
  unfold lognormal. destruct (_ : bool); [discriminate|].
  intros [= <- _]. by rewrite length_fmap, length_seq.
Qed.

#[export] Instance numpy : NumpyRandom := {
  RandomState := Z;
  np_random_uniform := uniform;
  np_random_triangular := triangular;
  np_random_beta := beta;
  np_random_lognormal := lognormal;
  np_log := log;
  np_random_uniform_shape := uniform_shape;
  np_random_triangular_shape := triangular_shape;
  np_random_beta_shape := beta_shape;
  np_random_lognormal_shape := lognormal_shape
}.

(** pandas skips NaN entries. *)
Definition dropna (a : list float) : list float :=
  List.filter (fun x => negb (is_nan x)) a.

Fixpoint insert_sorted (x : float) (a : list float) : list float :=
  match a with
  | [] => [x]
  | y :: a' => if x <=? y then x :: a else y :: insert_sorted x a'
  end.

Definition sort (a : list float) : list float := foldr insert_sorted [] a.

Definition floor_nat (x : float) : nat :=
  match Prim2SF x with
  | S754_finite false m e =>
      Z.to_nat (if (0 <=? e)%Z then Z.pos m * 2 ^ e else Z.pos m / 2 ^ (- e))
  | _ => 0%nat
  end.

Definition float_of_nat (n : nat) : float := float_of_Z (Z.of_nat n).

Definition s_min (a : list float) : float :=
  match dropna a with
  | [] => nan
  | x :: a' => foldr (fun y m => if y <? m then y else m) x a'
  end.

Definition s_max (a : list float) : float :=
  match dropna a with
  | [] => nan
  | x :: a' => foldr (fun y m => if m <? y then y else m) x a'
  end.

Definition s_mean (a : list float) : float :=
  let a := dropna a in
  match a with
  | [] => nan
  | _ => foldr PrimFloat.add 0 a / float_of_nat (length a)
  end.

(** Linear interpolation between the two closest ranks. *)
Definition interpolate (a : list float) (q : float) : float :=
  let a := sort (dropna a) in
  match a with
  | [] => nan
  | _ =>
      let pos := q * float_of_nat (length a - 1) in
      let i := floor_nat pos in
      let lo := nth i a nan in
      let hi := nth (Nat.min (S i) (length a - 1)) a nan in
      lo + (hi - lo) * (pos - float_of_nat i)
  end.

Definition s_median (a : list float) : float := interpolate a 0.5.

Definition s_std (a : list float) : float :=
  let a := dropna a in
  match a with
  | [] | [_] => nan
  | _ =>
      let m := s_mean a in
      sqrt (foldr PrimFloat.add 0 ((fun x => (x - m) * (x - m)) <$> a)
            / float_of_nat (length a - 1))
  end.

Definition s_quantile (a : list float) (q : float) : exn + float :=
  if (0 <=? q) && (q <=? 1) then inr (interpolate a q)
  else inl (ValueError "percentiles should all be in the interval [0, 1]").

#[export] Instance pandas : Pandas := {
  series_min := s_min;
  series_max := s_max;
  series_mean := s_mean;
  series_median := s_median;
  series_std := s_std;
  series_quantile := s_quantile
}.

End Standin.

Import MonteCarloSimulation.

(** ** Terms of the statements *)

(** What the three [__post_init__] leave in [most_likely] once the bounds
    are accepted. *)
Definition defaulted (d : string) (mn mx : float) (ml : option float)
  : option float :=
  if str_in d ["triangular"; "pert"] && bool_decide (ml = None)
  then Some ((mn + mx) / 2) else ml.

(** The rule of C4 on the [most_likely] an instance ends up with. *)
Definition midpoint_rule (d : string) (mn mx : float) (ml : option float) : Prop :=
  (d = "triangular" \/ d = "pert" -> ml = Some ((mn + mx) / 2))
  /\ (d = "uniform" \/ d = "lognormal" -> ml = None).

(** The instances a model holds are built by the constructors of their
    classes: that is the only way the three classes create one. *)
Definition constructed (m : FAIRModel.t) : Prop :=
  (forall s, FAIRModel.tef m = Some s ->
     exists mn mx ml d, TEFInput.new mn mx ml d = inr s)
  /\ (forall s, FAIRModel.vulnerability m = Some s ->
     exists mn mx ml d, VulnerabilityInput.new mn mx ml d = inr s)
  /\ (forall s, FAIRModel.loss_magnitude m = Some s ->
     exists mn mx ml d, LossInput.new mn mx ml d = inr s).

(** A call returned a value: it did not raise. *)
Definition returned {np : NumpyRandom} {S A : Type} (r : outcome S A) : Prop :=
  exists a, r.1 = inr a.

Section SamplerTerms.
Context {P : Type} `{Param P}.

(** The midpoint the PERT branch falls back on. *)
Definition midpoint (param : P) : float :=
  (min_value param + max_value param) / 2.

(** The [most_likely] the PERT branch works with. *)
Definition pert_most_likely (param : P) : float :=
  match most_likely param with
  | Some m => m
  | None => midpoint param
  end.

(** The PERT-weighted mean. *)
Definition pert_mu (param : P) : float :=
  (min_value param + 4 * pert_most_likely param + max_value param) / 6.

(** The parameter as the sampler leaves it. *)
Definition after_sampling (param : P) : P :=
  if String.eqb (lower (distribution param)) "pert" then
    match most_likely param with
    | None => set_most_likely (Some (midpoint param)) param
    | Some _ => param
    end
  else param.

End SamplerTerms.

(** Two characters that are equal, or a letter of 'A'..'Z' and the same
    letter of 'a'..'z'. *)
Definition same_letter (a b : ascii) : bool :=
  let x := nat_of_ascii a in
  let y := nat_of_ascii b in
  (x =? y)%nat
  || ((65 <=? x)%nat && (x <=? 90)%nat && (y =? x + 32)%nat)
  || ((65 <=? y)%nat && (y <=? 90)%nat && (x =? y + 32)%nat).

(** Two strings that differ in letter case only: the same length, and
    character by character the same letter. *)
Fixpoint same_up_to_case (s k : string) : bool :=
  match s, k with
  | EmptyString, EmptyString => true
  | String a s', String b k' => same_letter a b && same_up_to_case s' k'
  | _, _ => false
  end.

(** ** Concrete inputs *)

Definition example_tef : TEFInput.t := TEFInput.mk 0.5 3 None "uniform".
Definition example_vulnerability : VulnerabilityInput.t :=
  VulnerabilityInput.mk 0.25 0.75 (Some 0.5) "triangular".
Definition example_loss : LossInput.t := LossInput.mk 100000 2000000 None "lognormal".

Definition example_model : FAIRModel.t :=
  FAIRModel.mk "Data breach" "Loss of customer records"
    (Some example_tef) (Some example_vulnerability) (Some example_loss).

(** The draws of a sampler call, [[]] when it raises. *)
Definition draws_of {S : Type} (r : outcome (np := Standin.numpy) S (list float))
  : list float :=
  match r.1 with
  | inr a => a
  | inl _ => []
  end.

Definition example_tef_samples : list float :=
  draws_of (_generate_distribution_sample (np := Standin.numpy) example_tef 3 0%Z).
Definition example_vulnerability_samples : list float :=
  draws_of (_generate_distribution_sample (np := Standin.numpy) example_vulnerability 3 3%Z).
Definition example_loss_samples : list float :=
  draws_of (_generate_distribution_sample (np := Standin.numpy) example_loss 3 6%Z).

(** A model with two slots populated by the constructors and one unset. *)
Definition partial_tef : TEFInput.t := TEFInput.mk 0.5 3 (Some 1.75) "pert".
Definition partial_loss : LossInput.t := LossInput.mk 1000 5000 None "Uniform".
Definition partial_model : FAIRModel.t :=
  FAIRModel.mk "Ransomware" "" (Some partial_tef) None (Some partial_loss).

(** PERT parameters with an empty range, and with a mean on the lower bound. *)
Definition flat_pert : LossInput.t := LossInput.mk 1000 1000 None "PERT".
Definition low_pert : TEFInput.t := TEFInput.mk 0 10 (Some (-2.5)) "pert".

(** A PERT parameter with a range whose square is below the smallest float. *)
Definition tiny_pert : LossInput.t :=
  LossInput.mk 0 1e-200 (Some ((0 + 1e-200) / 2)) "pert".


(** The same PERT parameter written in capitals and in lower case. *)
Definition capital_pert : TEFInput.t := TEFInput.mk 2 8 (Some 4) "PERT".
Definition small_pert : TEFInput.t := TEFInput.mk 2 8 (Some 4) "pert".

(** A PERT loss written in capitals, as its constructor returns it: the
    constructor compares the kind letter for letter and leaves
    [most_likely] unset. *)
Definition capital_pert_loss : LossInput.t := LossInput.mk 0 10 None "PERT".

(** [label in message]. *)
Fixpoint contains (label message : string) : bool :=
  String.prefix label message
  || match message with
     | EmptyString => false
     | String _ rest => contains label rest
     end.

(** An error names a slot when its message carries the slot's label. *)
Definition error_names (e : exn) (label : string) : bool :=
  match e with
  | ValueError msg => contains label msg
  | _ => false
  end.

Definition empty_model : FAIRModel.t := FAIRModel.__init__ "New scenario" "".

(** ** pages/1_Risk_Analysis.py: running a scenario from the page *)

Module Risk_Analysis.

(** What the page keeps in [st.session_state] under a key. *)
Inductive session_value :=
  | SessionTable (df : DataFrame)
  | SessionValue (v : pyval)
  | SessionModel (m : FAIRModel.t).

Section Page.
Context {np : NumpyRandom} {pd : Pandas}.

(** Run the Monte Carlo simulation and store results in session state.
    The model is the caller's object: it is returned as the run leaves it. *)
Definition run_simulation (fair_model : FAIRModel.t) (num_simulations : nat)
    (session_state : gmap string session_value) (g : RandomState)
  : (exn + unit) * (FAIRModel.t * gmap string session_value * RandomState) :=
  let simulation := MonteCarloSimulation.__init__ fair_model num_simulations in
  let '(r, (simulation, g)) := MonteCarloSimulation.run_simulation simulation g in
  match r with
  | inl e => (inl e, (MonteCarloSimulation.fair_model simulation, session_state, g))
  | inr results =>
      let session_state :=
        <["simulation_results" := SessionTable results]> session_state in
      match get_summary_statistics simulation with
      | inl e =>
          (inl e, (MonteCarloSimulation.fair_model simulation, session_state, g))
      | inr summary =>
          (inr tt,
           (MonteCarloSimulation.fair_model simulation,
            <["simulation_summary" := SessionValue summary]> session_state, g))
      end
  end.

End Page.

End Risk_Analysis.

(** ** utils/data_helpers.py: the predefined scenarios *)

(** Load a set of predefined sample risk scenarios: the dictionary from
    scenario name to model, in the order of the source.  The integer
    literals of the source are read as floats. *)
Definition load_sample_scenarios : exn + list (string * FAIRModel.t) :=
  let data_breach :=
    FAIRModel.__init__ "Data Breach Scenario"
      "A scenario involving unauthorized access to sensitive customer data" in
  try tef <- TEFInput.new 0.5 3.0 (Some 1.0) "triangular";
  let data_breach := FAIRModel.set_threat_event_frequency data_breach tef in
  try vulnerability <- VulnerabilityInput.new 0.2 0.6 (Some 0.3) "triangular";
  let data_breach := FAIRModel.set_vulnerability data_breach vulnerability in
  try loss_magnitude <- LossInput.new 100000 2000000 (Some 500000) "pert";
  let data_breach := FAIRModel.set_loss_magnitude data_breach loss_magnitude in
  let ransomware :=
    FAIRModel.__init__ "Ransomware Attack"
      "A scenario involving a ransomware attack causing business disruption" in
  try tef <- TEFInput.new 0.1 1.0 (Some 0.3) "triangular";
  let ransomware := FAIRModel.set_threat_event_frequency ransomware tef in
  try vulnerability <- VulnerabilityInput.new 0.3 0.8 (Some 0.5) "triangular";
  let ransomware := FAIRModel.set_vulnerability ransomware vulnerability in
  try loss_magnitude <- LossInput.new 50000 5000000 (Some 750000) "lognormal";
  let ransomware := FAIRModel.set_loss_magnitude ransomware loss_magnitude in
  let ddos :=
    FAIRModel.__init__ "DDoS Attack"
      "A Distributed Denial of Service attack disrupting online services" in
  try tef <- TEFInput.new 1.0 10.0 (Some 4.0) "triangular";
  let ddos := FAIRModel.set_threat_event_frequency ddos tef in
  try vulnerability <- VulnerabilityInput.new 0.1 0.5 (Some 0.3) "triangular";
  let ddos := FAIRModel.set_vulnerability ddos vulnerability in
  try loss_magnitude <- LossInput.new 10000 500000 (Some 100000) "pert";
  let ddos := FAIRModel.set_loss_magnitude ddos loss_magnitude in
  let insider_threat :=
    FAIRModel.__init__ "Insider Threat"
      "A scenario involving data theft or sabotage by an employee" in
  try tef <- TEFInput.new 0.05 1.0 (Some 0.2) "triangular";
  let insider_threat := FAIRModel.set_threat_event_frequency insider_threat tef in
  try vulnerability <- VulnerabilityInput.new 0.3 0.7 (Some 0.5) "triangular";
  let insider_threat := FAIRModel.set_vulnerability insider_threat vulnerability in
  try loss_magnitude <- LossInput.new 50000 3000000 (Some 500000) "pert";
  let insider_threat := FAIRModel.set_loss_magnitude insider_threat loss_magnitude in
  let cloud_outage :=
    FAIRModel.__init__ "Cloud Service Outage"
      "A scenario involving an extended outage of a critical cloud service" in
  try tef <- TEFInput.new 0.5 3.0 (Some 1.0) "triangular";
  let cloud_outage := FAIRModel.set_threat_event_frequency cloud_outage tef in
  try vulnerability <- VulnerabilityInput.new 0.1 0.4 (Some 0.2) "triangular";
  let cloud_outage := FAIRModel.set_vulnerability cloud_outage vulnerability in
  try loss_magnitude <- LossInput.new 20000 1000000 (Some 200000) "pert";
  let cloud_outage := FAIRModel.set_loss_magnitude cloud_outage loss_magnitude in
  inr [ ("Data Breach Scenario", data_breach);
        ("Ransomware Attack", ransomware);
        ("DDoS Attack", ddos);
        ("Insider Threat", insider_threat);
        ("Cloud Service Outage", cloud_outage) ].

(** A constructor call returns an instance. *)
Definition is_inr_TEF (mn mx : float) (ml : option float) (d : string) : Prop :=
  exists s, TEFInput.new mn mx ml d = inr s.
Definition is_inr_Vulnerability (mn mx : float) (ml : option float) (d : string)
  : Prop := exists s, VulnerabilityInput.new mn mx ml d = inr s.
Definition is_inr_Loss (mn mx : float) (ml : option float) (d : string) : Prop :=
  exists s, LossInput.new mn mx ml d = inr s.

(** A triangular input written with a capital, as its constructor returns
    it. *)
Definition capital_triangular : TEFInput.t := TEFInput.mk 1 5 None "Triangular".

(** The percentiles the summary asks of the [ALE] column. *)
Definition summary_percentiles : list float := [0.1; 0.25; 0.75; 0.9; 0.95; 0.99].

(** The simulation object after a run of the example model with five
    samples. *)
Definition example_run : MonteCarloSimulation.t :=
  (run_simulation (np := Standin.numpy) (__init__ example_model 5) 0%Z).2.1.

(** A parameter numpy's draws accept as it is: a kind the sampler knows,
    written in lower case, a [most_likely] that is set, and
    [min_value < max_value] with [most_likely] between them. *)
Definition well_shaped {P : Type} `{Param P} (param : P) : bool :=
  str_in (distribution param) ["uniform"; "triangular"; "pert"; "lognormal"]
  && match most_likely param with
     | Some m =>
         (min_value param <? max_value param)
         && (min_value param <=? m) && (m <=? max_value param)
     | None => false
     end.

(** A model whose three slots hold such parameters. *)
Definition scenario_ready (m : FAIRModel.t) : bool :=
  match FAIRModel.tef m, FAIRModel.vulnerability m, FAIRModel.loss_magnitude m with
  | Some t, Some v, Some l => well_shaped t && well_shaped v && well_shaped l
  | _, _, _ => false
  end.

(** The table and the summary of the example run. *)
Definition example_table : DataFrame := default [] (results example_run).
Definition example_summary : pyval :=
  match get_summary_statistics (pd := Standin.pandas) example_run with
  | inr stats => stats
  | inl _ => PyNone
  end.

(** A float that is a number: a zero or a finite value, neither NaN nor an
    infinity. *)
Definition is_number (x : float) : bool :=
  match Prim2SF x with
  | S754_zero _ | S754_finite _ _ _ => true
  | _ => false
  end.

(** A lognormal loss with equal bounds. *)
Definition flat_lognormal : LossInput.t := LossInput.mk 5000 5000 None "lognormal".

(** The dictionary of the witness of C2 with one more entry. *)
Definition annotated_dict : pyval :=
  match FAIRModel.to_dict partial_model with
  | PyDict items => PyDict (("owner", PyStr "risk team") :: items)
  | other => other
  end.

(** The model of the witness of C2, assembled by the setters. *)
Definition partial_model_by_setters : FAIRModel.t :=
  FAIRModel.set_threat_event_frequency
    (FAIRModel.set_loss_magnitude (FAIRModel.__init__ "Ransomware" "") partial_loss)
    partial_tef.

(** A dictionary whose slots are an empty dictionary, [None] and [None]. *)
Definition sparse_dict : pyval :=
  PyDict [ ("name", PyStr "Draft"); ("description", PyStr "");
           ("tef", PyDict []); ("vulnerability", PyNone);
           ("loss_magnitude", PyNone) ].

(** A PERT frequency, as its constructor returns it, with a range whose
    square is above the largest float. *)
Definition huge_pert : TEFInput.t :=
  TEFInput.mk 0 1e200 (Some ((0 + 1e200) / 2)) "pert".

(** A triangular frequency with equal bounds, as its constructor returns
    it. *)
Definition flat_triangular : TEFInput.t :=
  TEFInput.mk 2 2 (Some ((2 + 2) / 2)) "triangular".

(** The example model with these frequencies. *)
Definition huge_model : FAIRModel.t :=
  FAIRModel.mk "Outage" "Loss of service"
    (Some huge_pert) (Some example_vulnerability) (Some example_loss).
Definition flat_model : FAIRModel.t :=
  FAIRModel.mk "Outage" "Loss of service"
    (Some flat_triangular) (Some example_vulnerability) (Some example_loss).

(** Parameters whose kind is written with capitals, and the same
    parameters under a kind the sampler does not know. *)
Definition capital_low_pert : TEFInput.t := TEFInput.mk 0 10 (Some (-2.5)) "PERT".
Definition weibull_low : TEFInput.t := TEFInput.mk 0 10 (Some (-2.5)) "Weibull".
Definition capital_mode_triangular : TEFInput.t :=
  TEFInput.mk 1 5 (Some 2) "Triangular".
Definition weibull_mode : TEFInput.t := TEFInput.mk 1 5 (Some 2) "Weibull".
Definition weibull_pert_loss : LossInput.t := LossInput.mk 0 10 None "Weibull".

(** Two arrays of the same length and values. *)
Definition same_draws (a b : list float) : bool :=
  (length a =? length b)%nat
  && forallb (fun xy => fst xy =? snd xy) (zip a b).

(** ** IEEE facts used below *)

Section Binary64.

Lemma shr_by_52 (m : positive) :
  SpecFloat.iter_pos shr_1 52
    {| shr_m := Zpos (Pos.mul 4503599627370496 m); shr_r := false; shr_s := false |}
  = {| shr_m := Zpos m; shr_r := false; shr_s := false |}.
Proof. reflexivity. Qed.

Lemma digits_times_2p52 (m : positive) :
  Zpos (digits2_pos (Pos.mul 4503599627370496 m))
  = (Zpos (digits2_pos m) + 52)%Z.
Proof. lazy [Pos.mul]. cbn [digits2_pos]. lia. Qed.

(** Multiplying by one is exact on every valid binary64 datum. *)
Lemma SF64mul_one_l (x : spec_float) :
  valid_binary x = true ->
  SF64mul (S754_finite false 4503599627370496 (-52)) x = x.
Proof.
  destruct x as [s | s | | s m e]; try reflexivity.
  intros Hv. cbn [SpecFloat.valid_binary] in Hv.
  unfold bounded, canonical_mantissa in Hv.
  apply andb_true_iff in Hv as [Hc He].
  apply Z.eqb_eq in Hc.
  unfold SF64mul, SFmul, binary_round_aux.
  assert (Hsh :
    shr_fexp prec emax (Zpos (Pos.mul 4503599627370496 m)) (-52 + e) loc_Exact
    = ({| shr_m := Zpos m; shr_r := false; shr_s := false |}, e)).
  { unfold shr_fexp. cbn [Zdigits2 shr_record_of_loc].
    rewrite digits_times_2p52.
    replace (Zpos (digits2_pos m) + 52 + (-52 + e))%Z
      with (Zpos (digits2_pos m) + e)%Z by lia.
    rewrite Hc.
    replace (e - (-52 + e))%Z with 52%Z by lia.
    unfold shr. rewrite shr_by_52. f_equal. lia. }
  rewrite Hsh. cbn [shr_m loc_of_shr_record round_nearest_even].
  unfold shr_fexp. cbn [Zdigits2 shr_record_of_loc].
  rewrite Hc, Z.sub_diag. cbn [shr shr_m]. rewrite He. reflexivity.
Qed.

Lemma float_mul_1_l (x : float) : 1 * x = x.
Proof.
  apply Prim2SF_inj. rewrite mul_spec.
  change (Prim2SF 1) with (S754_finite false 4503599627370496 (-52)).
  apply SF64mul_one_l, Prim2SF_valid.
Qed.

End Binary64.

(** ** Properties of the input classes *)

Lemma str_in_kinds (d : string) :
  str_in d ["triangular"; "pert"] = true <-> d = "triangular" \/ d = "pert".
Proof.
  unfold str_in. cbn [existsb]. rewrite !orb_true_iff, !String.eqb_eq.
  intuition discriminate.
Qed.

Lemma str_in_kinds_false (d : string) :
  str_in d ["triangular"; "pert"] = false <-> d <> "triangular" /\ d <> "pert".
Proof.
  rewrite <- not_true_iff_false, str_in_kinds. tauto.
Qed.

Lemma TEFInput_new_inr mn mx ml d s :
  TEFInput.new mn mx ml d = inr s <->
  (mn <? 0) = false /\ (mx <? mn) = false
  /\ s = TEFInput.mk mn mx (defaulted d mn mx ml) d.
Proof.
  unfold TEFInput.new, TEFInput.__post_init__, TEFInput.set_most_likely, defaulted.
  cbn [TEFInput.min_value TEFInput.max_value TEFInput.most_likely
       TEFInput.distribution].
  destruct (mn <? 0), (mx <? mn), (str_in d _ && bool_decide (ml = None));
    split; try (intros [= <-]); try (intros (? & ? & ->)); auto; discriminate.
Qed.

Lemma TEFInput_new_inl mn mx ml d :
  (exists e, TEFInput.new mn mx ml d = inl e)
  <-> (mn <? 0) = true \/ (mx <? mn) = true.
Proof.
  unfold TEFInput.new, TEFInput.__post_init__.
  cbn [TEFInput.min_value TEFInput.max_value].
  destruct (mn <? 0), (mx <? mn); try (split; eauto; fail).
  split; [intros [? H]; destruct (_ && _) in H; discriminate | intros [[=]|[=]]].
Qed.

Lemma VulnerabilityInput_new_inl mn mx ml d :
  (exists e, VulnerabilityInput.new mn mx ml d = inl e)
  <-> (0 <=? mn) && (mn <=? 1) = false \/ (0 <=? mx) && (mx <=? 1) = false
      \/ (mx <? mn) = true.
Proof.
  unfold VulnerabilityInput.new, VulnerabilityInput.__post_init__.
  cbn [VulnerabilityInput.min_value VulnerabilityInput.max_value].
  destruct ((0 <=? mn) && (mn <=? 1)), ((0 <=? mx) && (mx <=? 1)), (mx <? mn);
    cbn [negb]; try (split; eauto; fail).
  split; [intros [? H]; destruct (_ && _) in H; discriminate
         | intros [[=]|[[=]|[=]]]].
Qed.

Lemma LossInput_new_inl mn mx ml d :
  (exists e, LossInput.new mn mx ml d = inl e)
  <-> (mn <? 0) = true \/ (mx <? mn) = true.
Proof.
  unfold LossInput.new, LossInput.__post_init__.
  cbn [LossInput.min_value LossInput.max_value].
  destruct (mn <? 0), (mx <? mn); try (split; eauto; fail).
  split; [intros [? H]; destruct (_ && _) in H; discriminate | intros [[=]|[=]]].
Qed.

Lemma VulnerabilityInput_new_inr mn mx ml d s :
  VulnerabilityInput.new mn mx ml d = inr s <->
  (0 <=? mn) && (mn <=? 1) = true /\ (0 <=? mx) && (mx <=? 1) = true
  /\ (mx <? mn) = false
  /\ s = VulnerabilityInput.mk mn mx (defaulted d mn mx ml) d.
Proof.
  unfold VulnerabilityInput.new, VulnerabilityInput.__post_init__,
    VulnerabilityInput.set_most_likely, defaulted.
  cbn [VulnerabilityInput.min_value VulnerabilityInput.max_value
       VulnerabilityInput.most_likely VulnerabilityInput.distribution].
  destruct ((0 <=? mn) && (mn <=? 1)), ((0 <=? mx) && (mx <=? 1)), (mx <? mn),
    (str_in d _ && bool_decide (ml = None));
    split; try (intros [= <-]); try (intros (? & ? & ? & ->)); auto; discriminate.
Qed.

Lemma LossInput_new_inr mn mx ml d s :
  LossInput.new mn mx ml d = inr s <->
  (mn <? 0) = false /\ (mx <? mn) = false
  /\ s = LossInput.mk mn mx (defaulted d mn mx ml) d.
Proof.
  unfold LossInput.new, LossInput.__post_init__, LossInput.set_most_likely, defaulted.
  cbn [LossInput.min_value LossInput.max_value LossInput.most_likely
       LossInput.distribution].
  destruct (mn <? 0), (mx <? mn), (str_in d _ && bool_decide (ml = None));
    split; try (intros [= <-]); try (intros (? & ? & ->)); auto; discriminate.
Qed.

(** C3. Construction of a distribution input raises exactly when one of its
    invariants is violated: for the threat frequency and the loss magnitude
    when [min_value < 0] or [max_value < min_value]; for the vulnerability
    when [min_value] or [max_value] is not within [0, 1] or
    [max_value < min_value].  Nothing is clamped: a violation yields the
    exception and no instance, and an instance that is returned stores
    [min_value] and [max_value] as they were given. *)
Theorem construction_raises_iff_invariant_violated
    (mn mx : float) (ml : option float) (d : string) :
  ((exists e, TEFInput.new mn mx ml d = inl e)
     <-> (mn <? 0) = true \/ (mx <? mn) = true)
  /\ ((exists e, VulnerabilityInput.new mn mx ml d = inl e)
     <-> (0 <=? mn) && (mn <=? 1) = false \/ (0 <=? mx) && (mx <=? 1) = false
         \/ (mx <? mn) = true)
  /\ ((exists e, LossInput.new mn mx ml d = inl e)
     <-> (mn <? 0) = true \/ (mx <? mn) = true)
  /\ (forall s, TEFInput.new mn mx ml d = inr s ->
        TEFInput.min_value s = mn /\ TEFInput.max_value s = mx)
  /\ (forall s, VulnerabilityInput.new mn mx ml d = inr s ->
        VulnerabilityInput.min_value s = mn /\ VulnerabilityInput.max_value s = mx)
  /\ (forall s, LossInput.new mn mx ml d = inr s ->
        LossInput.min_value s = mn /\ LossInput.max_value s = mx).
Proof.
  split; [apply TEFInput_new_inl|].
  split; [apply VulnerabilityInput_new_inl|].
  split; [apply LossInput_new_inl|].
  split; [|split].
  - by intros s (_ & _ & ->)%TEFInput_new_inr.
  - by intros s (_ & _ & _ & ->)%VulnerabilityInput_new_inr.
  - by intros s (_ & _ & ->)%LossInput_new_inr.
Qed.

Lemma defaulted_None d mn mx : midpoint_rule d mn mx (defaulted d mn mx None).
Proof.
  unfold midpoint_rule, defaulted. split.
  - intros H%str_in_kinds. by rewrite H.
  - intros H. replace (str_in d _) with false; [done|].
    symmetry. apply str_in_kinds_false. destruct H as [-> | ->]; done.
Qed.

(** C4. An input constructed with kind ["triangular"] or ["pert"] and no
    [most_likely] has [most_likely = (min_value + max_value) / 2] once
    constructed; with kind ["uniform"] or ["lognormal"] it keeps
    [most_likely = None].  This holds for the three input classes. *)
Theorem most_likely_defaults_to_midpoint (mn mx : float) (d : string) :
  (forall s, TEFInput.new mn mx None d = inr s ->
     midpoint_rule d mn mx (TEFInput.most_likely s))
  /\ (forall s, VulnerabilityInput.new mn mx None d = inr s ->
     midpoint_rule d mn mx (VulnerabilityInput.most_likely s))
  /\ (forall s, LossInput.new mn mx None d = inr s ->
     midpoint_rule d mn mx (LossInput.most_likely s)).
Proof.
  split; [|split].
  - intros s (_ & _ & ->)%TEFInput_new_inr. apply defaulted_None.
  - intros s (_ & _ & _ & ->)%VulnerabilityInput_new_inr. apply defaulted_None.
  - intros s (_ & _ & ->)%LossInput_new_inr. apply defaulted_None.
Qed.

(** C4 on one instance of each class. *)
Lemma most_likely_defaults_to_midpoint_witness :
  TEFInput.new 0 10 None "pert" = inr (TEFInput.mk 0 10 (Some 5) "pert")
  /\ midpoint_rule "pert" 0 10 (Some 5)
  /\ VulnerabilityInput.new 0.25 0.75 None "triangular"
     = inr (VulnerabilityInput.mk 0.25 0.75 (Some 0.5) "triangular")
  /\ midpoint_rule "triangular" 0.25 0.75 (Some 0.5)
  /\ LossInput.new 1000 5000 None "lognormal"
     = inr (LossInput.mk 1000 5000 None "lognormal")
  /\ midpoint_rule "lognormal" 1000 5000 None.
Proof.
  split; [reflexivity|].
  split; [exact (proj1 (most_likely_defaults_to_midpoint 0 10 "pert")
                   (TEFInput.mk 0 10 (Some 5) "pert") eq_refl)|].
  split; [reflexivity|].
  split; [exact (proj1 (proj2 (most_likely_defaults_to_midpoint 0.25 0.75 "triangular"))
                   (VulnerabilityInput.mk 0.25 0.75 (Some 0.5) "triangular") eq_refl)|].
  split; [reflexivity|].
  exact (proj2 (proj2 (most_likely_defaults_to_midpoint 1000 5000 "lognormal"))
           (LossInput.mk 1000 5000 None "lognormal") eq_refl).
Defined.

(** ** Serialisation round trip *)

Lemma defaulted_idem d mn mx ml :
  defaulted d mn mx (defaulted d mn mx ml) = defaulted d mn mx ml.
Proof.
  unfold defaulted. destruct (str_in d _); [|reflexivity].
  destruct ml; reflexivity.
Qed.

(** Constructing again from the fields of a constructed instance gives the
    instance back. *)
Lemma TEFInput_new_again mn mx ml d s :
  TEFInput.new mn mx ml d = inr s ->
  TEFInput.new (TEFInput.min_value s) (TEFInput.max_value s)
    (TEFInput.most_likely s) (TEFInput.distribution s) = inr s.
Proof.
  intros (E1 & E2 & ->)%TEFInput_new_inr. apply TEFInput_new_inr. cbn.
  by rewrite defaulted_idem.
Qed.

Lemma VulnerabilityInput_new_again mn mx ml d s :
  VulnerabilityInput.new mn mx ml d = inr s ->
  VulnerabilityInput.new (VulnerabilityInput.min_value s)
    (VulnerabilityInput.max_value s) (VulnerabilityInput.most_likely s)
    (VulnerabilityInput.distribution s) = inr s.
Proof.
  intros (E1 & E2 & E3 & ->)%VulnerabilityInput_new_inr.
  apply VulnerabilityInput_new_inr. cbn. by rewrite defaulted_idem.
Qed.

Lemma LossInput_new_again mn mx ml d s :
  LossInput.new mn mx ml d = inr s ->
  LossInput.new (LossInput.min_value s) (LossInput.max_value s)
    (LossInput.most_likely s) (LossInput.distribution s) = inr s.
Proof.
  intros (E1 & E2 & ->)%LossInput_new_inr. apply LossInput_new_inr. cbn.
  by rewrite defaulted_idem.
Qed.

Lemma as_optional_float_of (v : option float) :
  as_optional_float (of_optional_float v) = inr v.
Proof. by destruct v. Qed.

(** C2. For every model whose populated slots hold constructed instances,
    with any subset of the three slots unset, [from_dict (to_dict m)]
    returns a model equal to [m]: same name and description, the same
    [min_value], [max_value], [most_likely] ([None] included) and
    [distribution] in each populated slot, and unset slots unset. *)
Theorem from_dict_to_dict (m : FAIRModel.t) :
  constructed m -> FAIRModel.from_dict (FAIRModel.to_dict m) = inr m.
Proof.
  destruct m as [name description tef vulnerability loss_magnitude].
  intros (Ht & Hv & Hl). cbn in Ht, Hv, Hl.
  assert (Et : forall t, tef = Some t ->
            TEFInput.new (TEFInput.min_value t) (TEFInput.max_value t)
              (TEFInput.most_likely t) (TEFInput.distribution t) = inr t).
  { intros t E. destruct (Ht t E) as (? & ? & ? & ? & H).
    by eapply TEFInput_new_again. }
  assert (Ev : forall v, vulnerability = Some v ->
            VulnerabilityInput.new (VulnerabilityInput.min_value v)
              (VulnerabilityInput.max_value v) (VulnerabilityInput.most_likely v)
              (VulnerabilityInput.distribution v) = inr v).
  { intros v E. destruct (Hv v E) as (? & ? & ? & ? & H).
    by eapply VulnerabilityInput_new_again. }
  assert (El : forall l, loss_magnitude = Some l ->
            LossInput.new (LossInput.min_value l) (LossInput.max_value l)
              (LossInput.most_likely l) (LossInput.distribution l) = inr l).
  { intros l E. destruct (Hl l E) as (? & ? & ? & ? & H).
    by eapply LossInput_new_again. }
  clear Ht Hv Hl.
  unfold FAIRModel.from_dict, FAIRModel.to_dict.
  destruct tef as [t|], vulnerability as [v|], loss_magnitude as [l|];
    cbn; rewrite ?as_optional_float_of; cbn;
    rewrite ?(Et _ eq_refl); cbn;
    rewrite ?as_optional_float_of; cbn;
    rewrite ?(Ev _ eq_refl); cbn;
    rewrite ?as_optional_float_of; cbn;
    rewrite ?(El _ eq_refl); reflexivity.
Qed.

(** ** Properties of the sampler *)

Section SamplerFacts.
Context {np : NumpyRandom} {P : Type} `{Param P}.

Lemma length_np_scale a c : length (np_scale a c) = length a.
Proof. apply length_fmap. Qed.

Lemma length_np_shift c a : length (np_shift c a) = length a.
Proof. apply length_fmap. Qed.

Lemma length_np_ones size : length (np_ones size) = size.
Proof. apply length_replicate. Qed.

Lemma np_scale_ones size c : np_scale (np_ones size) c = replicate size c.
Proof.
  unfold np_scale, np_ones. rewrite fmap_replicate. by rewrite float_mul_1_l.
Qed.

Lemma sample_param param size g :
  (_generate_distribution_sample param size g).2.1 = after_sampling param.
Proof.
  unfold _generate_distribution_sample, after_sampling, on, midpoint.
  destruct (String.eqb (lower (distribution param)) "uniform") eqn:Eu.
  { apply String.eqb_eq in Eu. rewrite Eu. reflexivity. }
  destruct (String.eqb (lower (distribution param)) "triangular") eqn:Et.
  { apply String.eqb_eq in Et. rewrite Et. reflexivity. }
  destruct (String.eqb (lower (distribution param)) "pert") eqn:Ep.
  2: { by destruct (String.eqb _ "lognormal"). }
  destruct (most_likely param) as [m|]; repeat case_match; reflexivity.
Qed.

Lemma on_inr {S A : Type} (s s' : S) (r : (exn + A) * RandomState) a g' :
  on s r = (inr a, (s', g')) -> r = (inr a, g') /\ s' = s.
Proof. destruct r as [r g]. unfold on. cbn. by intros [= -> -> ->]. Qed.

Lemma sample_shape param size g a param' g' :
  _generate_distribution_sample param size g = (inr a, (param', g')) ->
  length a = size.
Proof.
  unfold _generate_distribution_sample.
  repeat case_match;
    try (intros [E _]%on_inr; revert E;
         first [ apply np_random_uniform_shape
               | apply np_random_triangular_shape
               | apply np_random_lognormal_shape ]);
    intros [= <- _ _];
    rewrite ?length_np_shift, ?length_np_scale, ?length_np_ones; try done;
    by eapply np_random_beta_shape.
Qed.

Lemma sample_uniform param size g :
  lower (distribution param) = "uniform" ->
  _generate_distribution_sample param size g
  = on param (np_random_uniform (min_value param) (max_value param) size g).
Proof. unfold _generate_distribution_sample. by intros ->. Qed.

(** C5. In the PERT branch, when [max_value - min_value == 0] every one of
    the [size] draws is [min_value], and the generator is not used (it is
    returned as it was: no beta sampling); otherwise, with
    [mu = (min_value + 4 * most_likely + max_value) / 6], when
    [mu == min_value] or [mu == max_value] every draw is [mu], again
    without using the generator. *)
Theorem pert_degenerate_draws param size g :
  lower (distribution param) = "pert" ->
  ((max_value param - min_value param =? 0) = true ->
     _generate_distribution_sample param size g
     = (inr (replicate size (min_value param)), (after_sampling param, g)))
  /\ ((max_value param - min_value param =? 0) = false ->
      (pert_mu param =? min_value param) || (pert_mu param =? max_value param)
        = true ->
      _generate_distribution_sample param size g
      = (inr (replicate size (pert_mu param)), (after_sampling param, g))).
Proof.
  intros Ep.
  unfold _generate_distribution_sample, after_sampling, pert_mu,
    pert_most_likely, midpoint.
  rewrite Ep. cbn [String.eqb Ascii.eqb Bool.eqb].
  destruct (most_likely param) as [m|];
    rewrite ?min_value_set, ?max_value_set;
    (split; [intros -> | intros -> ->]); by rewrite np_scale_ones.
Qed.

(** What the sampler may change of its parameter: nothing but a missing
    [most_likely], in the PERT branch. *)
Lemma after_sampling_fields param :
  min_value (after_sampling param) = min_value param
  /\ max_value (after_sampling param) = max_value param
  /\ distribution (after_sampling param) = distribution param
  /\ (lower (distribution param) = "pert" -> most_likely param = None ->
      most_likely (after_sampling param) = Some (midpoint param))
  /\ (lower (distribution param) <> "pert" \/ most_likely param <> None ->
      after_sampling param = param).
Proof.
  unfold after_sampling.
  destruct (String.eqb (lower (distribution param)) "pert") eqn:Ep.
  - apply String.eqb_eq in Ep.
    destruct (most_likely param) as [m|] eqn:Em.
    + repeat split; try done.
    + rewrite min_value_set, max_value_set, distribution_set, most_likely_set.
      repeat split; try done. intros [?|?]; done.
  - apply String.eqb_neq in Ep. repeat split; done.
Qed.

(** C6, as the code has it. Sampling leaves [min_value], [max_value] and
    [distribution] of its parameter as they were, and [most_likely] too,
    except in the PERT branch when [most_likely] is [None]: the sampler
    then stores the midpoint [(min_value + max_value) / 2] in it.  This
    holds whether the call returns draws or raises. *)
Theorem sampling_changes_only_missing_most_likely param size g :
  let param' := (_generate_distribution_sample param size g).2.1 in
  min_value param' = min_value param
  /\ max_value param' = max_value param
  /\ distribution param' = distribution param
  /\ (lower (distribution param) = "pert" -> most_likely param = None ->
      most_likely param' = Some (midpoint param))
  /\ (lower (distribution param) <> "pert" \/ most_likely param <> None ->
      param' = param).
Proof. cbv zeta. rewrite sample_param. apply after_sampling_fields. Qed.


End SamplerFacts.

(** Strings that differ in letter case only have the same lower case. *)
Lemma same_letter_lower (a b : ascii) :
  same_letter a b = true -> lower_ascii a = lower_ascii b.
Proof.
  unfold same_letter, lower_ascii.
  pose proof (ascii_nat_embedding a) as Ha.
  pose proof (ascii_nat_embedding b) as Hb.
  revert Ha Hb. generalize (nat_of_ascii a) (nat_of_ascii b).
  intros x y <- <-.
  rewrite !orb_true_iff, !andb_true_iff, !Nat.eqb_eq, !Nat.leb_le.
  intros [[->|[[Hx1 Hx2] ->]]|[[Hy1 Hy2] ->]].
  - reflexivity.
  - destruct (Nat.leb_spec 65 x); [|lia]. destruct (Nat.leb_spec x 90); [|lia].
    destruct (Nat.leb_spec (x + 32) 90); [lia|]. by rewrite andb_false_r.
  - destruct (Nat.leb_spec 65 y); [|lia]. destruct (Nat.leb_spec y 90); [|lia].
    destruct (Nat.leb_spec (y + 32) 90); [lia|]. by rewrite andb_false_r.
Qed.

Lemma same_up_to_case_lower (s k : string) :
  same_up_to_case s k = true -> lower s = lower k.
Proof.
  revert k. induction s as [|a s IH]; intros [|b k]; cbn; try done.
  rewrite andb_true_iff. intros [Hab Hsk].
  by rewrite (same_letter_lower a b Hab), (IH k Hsk).
Qed.

(** What each branch of the sampler calls. *)
Section BranchFacts.
Context {np : NumpyRandom} {P : Type} `{Param P}.

Lemma sample_triangular param size g :
  lower (distribution param) = "triangular" ->
  _generate_distribution_sample param size g
  = on param (np_random_triangular
                (min_value param) (most_likely param) (max_value param) size g).
Proof. unfold _generate_distribution_sample. by intros ->. Qed.

Lemma sample_lognormal param size g :
  lower (distribution param) = "lognormal" ->
  _generate_distribution_sample param size g
  = on param (np_random_lognormal
                ((np_log (min_value param) + np_log (max_value param)) / 2)
                ((np_log (max_value param) - np_log (min_value param)) / (2 * 1.645))
                size g).
Proof. unfold _generate_distribution_sample. by intros ->. Qed.

Lemma sample_pert_beta param size g :
  lower (distribution param) = "pert" ->
  (max_value param - min_value param =? 0) = false ->
  (pert_mu param =? min_value param) || (pert_mu param =? max_value param)
    = false ->
  (exists e,
     _generate_distribution_sample param size g
     = (inl e, (after_sampling param, g))
     /\ (e = ZeroDivisionError "float division by zero"
         \/ e = OverflowError "(34, 'Numerical result out of range')"))
  \/ (exists alpha beta,
     _generate_distribution_sample param size g
     = match np_random_beta alpha beta size g with
       | (inl e, g') => (inl e, (after_sampling param, g'))
       | (inr beta_samples, g') =>
           (inr (np_shift (min_value param)
                   (np_scale beta_samples (max_value param - min_value param))),
            (after_sampling param, g'))
       end).
Proof.
  intros Ep.
  unfold _generate_distribution_sample, after_sampling, pert_mu,
    pert_most_likely, midpoint.
  rewrite Ep. cbn [String.eqb Ascii.eqb Bool.eqb].
  destruct (most_likely param) as [m|];
    rewrite ?min_value_set, ?max_value_set; intros -> ->.
  all: unfold py_pow2, py_div; cbn [bind_exn].
  all: repeat (match goal with
       | |- context [bind_exn (if ?c then _ else _) _] => destruct c; cbn [bind_exn]
       end); eauto 6.
  all: right; eexists _, _; destruct (np_random_beta _ _ _ _) as [[?|?] ?]; reflexivity.
Qed.

End BranchFacts.

Section KindDispatch.
Context {np : NumpyRandom} {P Q : Type} `{Param P} `{Param Q}.

(** The sampler reads its parameter through the bounds, [most_likely] and
    the kind in lower case only. *)
Lemma sample_reads_lower_kind (p : P) (q : Q) size g :
  min_value p = min_value q ->
  max_value p = max_value q ->
  most_likely p = most_likely q ->
  lower (distribution p) = lower (distribution q) ->
  (_generate_distribution_sample p size g).1
    = (_generate_distribution_sample q size g).1
  /\ (_generate_distribution_sample p size g).2.2
    = (_generate_distribution_sample q size g).2.2
  /\ most_likely (_generate_distribution_sample p size g).2.1
    = most_likely (_generate_distribution_sample q size g).2.1.
Proof.
  intros Emin Emax Eml Ed. split; [|split].
  3: { rewrite !sample_param. unfold after_sampling, midpoint.
       rewrite Ed, Eml, Emin, Emax.
       destruct (String.eqb _ "pert"); [|done].
       destruct (most_likely q) eqn:Eq; [congruence|].
       by rewrite !most_likely_set. }
  all: unfold _generate_distribution_sample, on; rewrite Ed, Eml.
  all: destruct (most_likely q) as [m|];
    rewrite ?min_value_set, ?max_value_set, Emin, Emax;
    repeat case_match; simplify_eq; reflexivity.
Qed.

End KindDispatch.

Lemma defaulted_None_iff d mn mx :
  defaulted d mn mx None = Some ((mn + mx) / 2) <-> d = "triangular" \/ d = "pert".
Proof.
  unfold defaulted. rewrite <- str_in_kinds.
  destruct (str_in d _); cbn; split; congruence.
Qed.

(** C10. The sampler compares the kind in lower case, so a kind that
    differs from one of the four it knows in letter case only (["PERT"],
    ["Uniform"], ["Triangular"], ["LogNormal"]) takes that kind's branch and
    not the fallback: the call is numpy's uniform draw, its triangular draw
    on [most_likely], its lognormal draw on the fitted mean and sigma; in
    the PERT branch a missing [most_likely] is assigned, the two
    short-circuits return their constants without using the generator, and
    otherwise the shape derivation raises or the draws are numpy's beta
    draws rescaled to the range.  Two parameters with the same bounds and
    [most_likely] whose kinds differ in letter case only give the same
    draws or exception, the same generator state and the same
    [most_likely] afterwards.  The constructors compare the kind as it is
    written: a missing [most_likely] becomes the midpoint exactly when the
    kind is ["triangular"] or ["pert"], letter for letter. *)
Theorem kind_is_lowered_by_sampler_not_by_constructor :
  (forall (np : NumpyRandom) (P : Type) (HP : Param P)
          (p : P) (size : nat) (g : RandomState),
     (same_up_to_case (distribution p) "uniform" = true ->
      _generate_distribution_sample p size g
      = on p (np_random_uniform (min_value p) (max_value p) size g))
     /\ (same_up_to_case (distribution p) "triangular" = true ->
      _generate_distribution_sample p size g
      = on p (np_random_triangular
                (min_value p) (most_likely p) (max_value p) size g))
     /\ (same_up_to_case (distribution p) "lognormal" = true ->
      _generate_distribution_sample p size g
      = on p (np_random_lognormal
                ((np_log (min_value p) + np_log (max_value p)) / 2)
                ((np_log (max_value p) - np_log (min_value p)) / (2 * 1.645))
                size g))
     /\ (same_up_to_case (distribution p) "pert" = true ->
      most_likely (_generate_distribution_sample p size g).2.1
        = Some (pert_most_likely p)
      /\ ((max_value p - min_value p =? 0) = true ->
          _generate_distribution_sample p size g
          = (inr (replicate size (min_value p)), (after_sampling p, g)))
      /\ ((max_value p - min_value p =? 0) = false ->
          (pert_mu p =? min_value p) || (pert_mu p =? max_value p) = true ->
          _generate_distribution_sample p size g
          = (inr (replicate size (pert_mu p)), (after_sampling p, g)))
      /\ ((max_value p - min_value p =? 0) = false ->
          (pert_mu p =? min_value p) || (pert_mu p =? max_value p) = false ->
          (exists e,
             _generate_distribution_sample p size g
             = (inl e, (after_sampling p, g))
             /\ (e = ZeroDivisionError "float division by zero"
                 \/ e = OverflowError "(34, 'Numerical result out of range')"))
          \/ (exists alpha beta,
             _generate_distribution_sample p size g
             = match np_random_beta alpha beta size g with
               | (inl e, g') => (inl e, (after_sampling p, g'))
               | (inr beta_samples, g') =>
                   (inr (np_shift (min_value p)
                           (np_scale beta_samples (max_value p - min_value p))),
                    (after_sampling p, g'))
               end))))
  /\ (forall (np : NumpyRandom) (P Q : Type) (HP : Param P) (HQ : Param Q)
          (p : P) (q : Q) (size : nat) (g : RandomState),
     min_value p = min_value q ->
     max_value p = max_value q ->
     most_likely p = most_likely q ->
     same_up_to_case (distribution p) (distribution q) = true ->
     (_generate_distribution_sample p size g).1
       = (_generate_distribution_sample q size g).1
     /\ (_generate_distribution_sample p size g).2.2
       = (_generate_distribution_sample q size g).2.2
     /\ most_likely (_generate_distribution_sample p size g).2.1
       = most_likely (_generate_distribution_sample q size g).2.1)
  /\ (forall (mn mx : float) (d : string),
       (forall s, TEFInput.new mn mx None d = inr s ->
          (TEFInput.most_likely s = Some ((mn + mx) / 2)
             <-> d = "triangular" \/ d = "pert")
          /\ (d <> "triangular" -> d <> "pert" -> TEFInput.most_likely s = None))
       /\ (forall s, VulnerabilityInput.new mn mx None d = inr s ->
          (VulnerabilityInput.most_likely s = Some ((mn + mx) / 2)
             <-> d = "triangular" \/ d = "pert")
          /\ (d <> "triangular" -> d <> "pert" ->
              VulnerabilityInput.most_likely s = None))
       /\ (forall s, LossInput.new mn mx None d = inr s ->
          (LossInput.most_likely s = Some ((mn + mx) / 2)
             <-> d = "triangular" \/ d = "pert")
          /\ (d <> "triangular" -> d <> "pert" -> LossInput.most_likely s = None))).
Proof.
  split; [|split].
  - intros np P HP p size g. split; [|split; [|split]].
    + intros E%same_up_to_case_lower. by apply sample_uniform.
    + intros E%same_up_to_case_lower. by apply sample_triangular.
    + intros E%same_up_to_case_lower. by apply sample_lognormal.
    + intros E%same_up_to_case_lower. change (lower "pert") with "pert" in E.
      split; [|split; [|split]].
      * rewrite sample_param. unfold after_sampling, pert_most_likely.
        rewrite E. cbn [String.eqb Ascii.eqb Bool.eqb].
        destruct (most_likely p) eqn:Em; [done|]. by rewrite most_likely_set.
      * by apply pert_degenerate_draws.
      * by apply pert_degenerate_draws.
      * by apply sample_pert_beta.
  - intros np P Q HP HQ p q size g Emin Emax Eml E%same_up_to_case_lower.
    by apply sample_reads_lower_kind.
  - assert (Hn : forall d mn mx, d <> "triangular" -> d <> "pert" ->
              defaulted d mn mx None = None).
    { intros d mn mx H1 H2. unfold defaulted.
      by rewrite (proj2 (str_in_kinds_false d)). }
    intros mn mx d. split; [|split].
    + intros s (_ & _ & ->)%TEFInput_new_inr. cbn.
      split; [apply defaulted_None_iff | apply Hn].
    + intros s (_ & _ & _ & ->)%VulnerabilityInput_new_inr. cbn.
      split; [apply defaulted_None_iff | apply Hn].
    + intros s (_ & _ & ->)%LossInput_new_inr. cbn.
      split; [apply defaulted_None_iff | apply Hn].
Qed.

(** ** Properties of the simulation *)

Section Simulation.
Context {np : NumpyRandom}.

Lemma np_multiply_same_length (a b : list float) :
  length a = length b -> np_multiply a b = inr (zip_with PrimFloat.mul a b).
Proof. unfold np_multiply. intros ->. by rewrite Nat.eqb_refl. Qed.

Lemma validate_inputs_ok (m : FAIRModel.t) :
  FAIRModel.validate_inputs m = inr true
  <-> is_Some (FAIRModel.tef m) /\ is_Some (FAIRModel.vulnerability m)
      /\ is_Some (FAIRModel.loss_magnitude m).
Proof.
  unfold FAIRModel.validate_inputs.
  destruct (FAIRModel.tef m), (FAIRModel.vulnerability m),
    (FAIRModel.loss_magnitude m); split;
    try discriminate; try (intros (? & ? & ?)); by eauto using is_Some_None.
Qed.

(** The table [run_simulation] builds from the draws of the three sampler
    calls. *)
Lemma run_simulation_of_draws
    (name description : string) (tef : TEFInput.t)
    (vulnerability : VulnerabilityInput.t) (loss_magnitude : LossInput.t)
    (n : nat) (old : option DataFrame) (g g1 g2 g3 : RandomState)
    (tef_samples vulnerability_samples loss_magnitude_samples : list float)
    (tef' : TEFInput.t) (vulnerability' : VulnerabilityInput.t)
    (loss_magnitude' : LossInput.t) :
  let self :=
    mk (FAIRModel.mk name description
          (Some tef) (Some vulnerability) (Some loss_magnitude)) n old in
  _generate_distribution_sample tef n g = (inr tef_samples, (tef', g1)) ->
  _generate_distribution_sample vulnerability n g1
    = (inr vulnerability_samples, (vulnerability', g2)) ->
  _generate_distribution_sample loss_magnitude n g2
    = (inr loss_magnitude_samples, (loss_magnitude', g3)) ->
  exists lef_samples ale_samples : list float,
    let df : DataFrame :=
      [ ("TEF", tef_samples); ("Vulnerability", vulnerability_samples);
        ("LEF", lef_samples); ("Loss Magnitude", loss_magnitude_samples);
        ("ALE", ale_samples) ] in
    run_simulation self g
    = (inr df,
       (mk (FAIRModel.mk name description
              (Some tef') (Some vulnerability') (Some loss_magnitude'))
           n (Some df), g3))
    /\ nrows df = n
    /\ Forall (fun c => length c.2 = n) df
    /\ forall i, (i < n)%nat ->
         exists t v l : float,
           tef_samples !! i = Some t
           /\ vulnerability_samples !! i = Some v
           /\ loss_magnitude_samples !! i = Some l
           /\ lef_samples !! i = Some (t * v)
           /\ ale_samples !! i = Some (t * v * l).
Proof.
  intros self Ht Hv Hl.
  pose proof (sample_shape _ _ _ _ _ _ Ht) as Lt.
  pose proof (sample_shape _ _ _ _ _ _ Hv) as Lv.
  pose proof (sample_shape _ _ _ _ _ _ Hl) as Ll.
  exists (zip_with PrimFloat.mul tef_samples vulnerability_samples).
  exists (zip_with PrimFloat.mul
            (zip_with PrimFloat.mul tef_samples vulnerability_samples)
            loss_magnitude_samples).
  assert (Llef : length (zip_with PrimFloat.mul tef_samples vulnerability_samples) = n).
  { rewrite length_zip_with, Lt, Lv. lia. }
  assert (Lale : length (zip_with PrimFloat.mul
            (zip_with PrimFloat.mul tef_samples vulnerability_samples)
            loss_magnitude_samples) = n).
  { rewrite length_zip_with, Llef, Ll. lia. }
  cbv zeta. split; [|split; [|split]].
  - unfold run_simulation, self, and_then, raising, sample_tef,
      sample_vulnerability, sample_loss_magnitude, with_tef,
      with_vulnerability, with_loss_magnitude.
    cbn. rewrite Ht. cbn. rewrite Hv. cbn. rewrite Hl. cbn.
    rewrite np_multiply_same_length by congruence. cbn.
    rewrite np_multiply_same_length by congruence.
    unfold pd_DataFrame. cbn [forallb snd].
    rewrite Lt, Lv, Ll, Llef, Lale, Nat.eqb_refl. reflexivity.
  - exact Lt.
  - repeat constructor; done.
  - intros i Hi.
    destruct (lookup_lt_is_Some_2 tef_samples i) as [t Et]; [lia|].
    destruct (lookup_lt_is_Some_2 vulnerability_samples i) as [v Ev]; [lia|].
    destruct (lookup_lt_is_Some_2 loss_magnitude_samples i) as [l El]; [lia|].
    exists t, v, l. repeat split; try done.
    + rewrite lookup_zip_with, Et, Ev. reflexivity.
    + rewrite !lookup_zip_with, Et, Ev, El. reflexivity.
Qed.

(** A run on a populated model raises what the first failing sampler call
    raises, and stops there. *)
Lemma run_simulation_sampler_raises
    (name description : string) (tef : TEFInput.t)
    (vulnerability : VulnerabilityInput.t) (loss_magnitude : LossInput.t)
    (n : nat) (old : option DataFrame) (g : RandomState) :
  let self :=
    mk (FAIRModel.mk name description
          (Some tef) (Some vulnerability) (Some loss_magnitude)) n old in
  let tef_call := _generate_distribution_sample tef n g in
  let vulnerability_call :=
    _generate_distribution_sample vulnerability n tef_call.2.2 in
  let loss_call :=
    _generate_distribution_sample loss_magnitude n vulnerability_call.2.2 in
  (forall e, tef_call.1 = inl e ->
     run_simulation self g
     = (inl e,
        (mk (FAIRModel.mk name description
               (Some tef_call.2.1) (Some vulnerability) (Some loss_magnitude))
            n old, tef_call.2.2)))
  /\ (returned tef_call -> forall e, vulnerability_call.1 = inl e ->
     run_simulation self g
     = (inl e,
        (mk (FAIRModel.mk name description
               (Some tef_call.2.1) (Some vulnerability_call.2.1)
               (Some loss_magnitude))
            n old, vulnerability_call.2.2)))
  /\ (returned tef_call -> returned vulnerability_call ->
      forall e, loss_call.1 = inl e ->
     run_simulation self g
     = (inl e,
        (mk (FAIRModel.mk name description
               (Some tef_call.2.1) (Some vulnerability_call.2.1)
               (Some loss_call.2.1))
            n old, loss_call.2.2))).
Proof.
  cbv zeta.
  destruct (_generate_distribution_sample tef n g) as [rt [tef' g1]] eqn:Et.
  cbn [fst snd].
  destruct (_generate_distribution_sample vulnerability n g1)
    as [rv [vulnerability' g2]] eqn:Ev.
  cbn [fst snd].
  destruct (_generate_distribution_sample loss_magnitude n g2)
    as [rl [loss_magnitude' g3]] eqn:El.
  cbn [fst snd].
  unfold run_simulation, and_then, raising, sample_tef,
    sample_vulnerability, sample_loss_magnitude, with_tef,
    with_vulnerability, with_loss_magnitude.
  cbn. rewrite Et. cbn.
  split; [|split].
  - by intros e ->.
  - intros [a Ha] e ->. cbn in Ha. subst rt. cbn. by rewrite Ev.
  - intros [a Ha] [b Hb] e ->. cbn in Ha, Hb. subst rt rv. cbn. rewrite Ev. cbn.
    by rewrite El.
Qed.

(** C1, as the code has it. For a model whose three slots are populated
    and any sample count [n], [run_simulation] returns a table exactly when
    the three sampler calls, for the threat event frequency, the
    vulnerability and the loss magnitude in this order, return their
    draws.  It then returns and stores the table of the five columns, each
    of exactly [n] rows, and in every row [i] [LEF] is
    [TEF[i] * Vulnerability[i]] and [ALE] is [LEF[i] * LossMagnitude[i]].
    When a sampler call raises (numpy rejects the parameters, or the PERT
    shape derivation overflows or divides by zero), [run_simulation] raises
    that exception at once: the later factors are not sampled, no table is
    returned and the stored results stay as they were. *)
Theorem run_simulation_table
    (name description : string) (tef : TEFInput.t)
    (vulnerability : VulnerabilityInput.t) (loss_magnitude : LossInput.t)
    (n : nat) (old : option DataFrame) (g : RandomState) :
  let self :=
    mk (FAIRModel.mk name description
          (Some tef) (Some vulnerability) (Some loss_magnitude)) n old in
  let tef_call := _generate_distribution_sample tef n g in
  let vulnerability_call :=
    _generate_distribution_sample vulnerability n tef_call.2.2 in
  let loss_call :=
    _generate_distribution_sample loss_magnitude n vulnerability_call.2.2 in
  (returned tef_call -> returned vulnerability_call -> returned loss_call ->
   exists tef_samples vulnerability_samples lef_samples
          loss_magnitude_samples ale_samples : list float,
     let df : DataFrame :=
       [ ("TEF", tef_samples); ("Vulnerability", vulnerability_samples);
         ("LEF", lef_samples); ("Loss Magnitude", loss_magnitude_samples);
         ("ALE", ale_samples) ] in
     run_simulation self g
     = (inr df,
        (mk (FAIRModel.mk name description
               (Some tef_call.2.1) (Some vulnerability_call.2.1)
               (Some loss_call.2.1))
            n (Some df), loss_call.2.2))
     /\ tef_call.1 = inr tef_samples
     /\ vulnerability_call.1 = inr vulnerability_samples
     /\ loss_call.1 = inr loss_magnitude_samples
     /\ nrows df = n
     /\ Forall (fun c => length c.2 = n) df
     /\ forall i, (i < n)%nat ->
          exists t v l : float,
            tef_samples !! i = Some t
            /\ vulnerability_samples !! i = Some v
            /\ loss_magnitude_samples !! i = Some l
            /\ lef_samples !! i = Some (t * v)
            /\ ale_samples !! i = Some (t * v * l))
  /\ (returned (run_simulation self g)
      <-> returned tef_call /\ returned vulnerability_call
          /\ returned loss_call)
  /\ (forall e, tef_call.1 = inl e ->
      run_simulation self g
      = (inl e,
         (mk (FAIRModel.mk name description
                (Some tef_call.2.1) (Some vulnerability) (Some loss_magnitude))
             n old, tef_call.2.2)))
  /\ (returned tef_call -> forall e, vulnerability_call.1 = inl e ->
      run_simulation self g
      = (inl e,
         (mk (FAIRModel.mk name description
                (Some tef_call.2.1) (Some vulnerability_call.2.1)
                (Some loss_magnitude))
             n old, vulnerability_call.2.2)))
  /\ (returned tef_call -> returned vulnerability_call ->
      forall e, loss_call.1 = inl e ->
      run_simulation self g
      = (inl e,
         (mk (FAIRModel.mk name description
                (Some tef_call.2.1) (Some vulnerability_call.2.1)
                (Some loss_call.2.1))
             n old, loss_call.2.2))).
Proof.
  intros self tef_call vulnerability_call loss_call.
  pose proof (run_simulation_sampler_raises name description tef vulnerability
                loss_magnitude n old g) as Hraise.
  cbv zeta in Hraise.
  fold tef_call in Hraise. fold vulnerability_call in Hraise.
  fold loss_call in Hraise. fold self in Hraise.
  destruct Hraise as (Ht & Hv & Hl).
  match goal with |- ?table /\ _ => assert (Htable : table) end.
  { clear Ht Hv Hl.
    destruct tef_call as [rt [tef' g1]] eqn:Et.
    cbn [fst snd] in vulnerability_call.
    destruct vulnerability_call as [rv [vulnerability' g2]] eqn:Ev.
    cbn [fst snd] in loss_call.
    destruct loss_call as [rl [loss_magnitude' g3]] eqn:El.
    intros [tef_samples Ht] [vulnerability_samples Hv] [loss_magnitude_samples Hl].
    cbn [fst snd] in Ht, Hv, Hl |- *. subst rt rv rl.
    destruct (run_simulation_of_draws name description tef vulnerability
                loss_magnitude n old g g1 g2 g3 tef_samples vulnerability_samples
                loss_magnitude_samples tef' vulnerability' loss_magnitude'
                Et Ev El) as (lef_samples & ale_samples & H).
    exists tef_samples, vulnerability_samples, lef_samples,
      loss_magnitude_samples, ale_samples.
    cbv zeta in H |- *. destruct H as (Hrun & Hrows & Hcols & Hrel).
    repeat split; done. }
  split; [exact Htable|]. split; [|by repeat split].
  split.
  - intros [df Hdf].
    destruct (tef_call.1) as [e|ts] eqn:Et.
    { rewrite (Ht e eq_refl) in Hdf. discriminate Hdf. }
    assert (Rt : returned tef_call) by (by exists ts).
    destruct (vulnerability_call.1) as [e|vs] eqn:Ev.
    { rewrite (Hv Rt e eq_refl) in Hdf. discriminate Hdf. }
    assert (Rv : returned vulnerability_call) by (by exists vs).
    destruct (loss_call.1) as [e|ls] eqn:El.
    { rewrite (Hl Rt Rv e eq_refl) in Hdf. discriminate Hdf. }
    split; [exact Rt|]. split; [exact Rv|]. by exists ls.
  - intros (Rt & Rv & Rl).
    destruct (Htable Rt Rv Rl) as (ts & vs & lefs & ls & ales & H).
    cbv zeta in H. destruct H as (Hrun & _).
    eexists. rewrite Hrun. reflexivity.
Qed.

(** A run on a model whose threat event frequency is [huge_pert] raises
    before any draw, whatever numpy does: the square of the range is out of
    range. *)
Lemma run_simulation_range_overflow
    (vulnerability : VulnerabilityInput.t) (loss_magnitude : LossInput.t)
    (name description : string) (n : nat) (old : option DataFrame)
    (g : RandomState) :
  let self :=
    mk (FAIRModel.mk name description
          (Some huge_pert) (Some vulnerability) (Some loss_magnitude)) n old in
  run_simulation self g
  = (inl (OverflowError "(34, 'Numerical result out of range')"), (self, g)).
Proof. reflexivity. Qed.

(** C8, as the code has it. Validation succeeds exactly when the three
    slots are populated.  With a slot unset, [run_simulation] raises the
    error of the first unset slot in the order threat event frequency,
    vulnerability, loss magnitude (the later ones are not looked at),
    returns no table, and leaves the simulation, its stored results
    included, and the generator as they were. *)
Theorem run_simulation_first_unset_slot (self : t) (g : RandomState) :
  (FAIRModel.validate_inputs (fair_model self) = inr true
     <-> is_Some (FAIRModel.tef (fair_model self))
         /\ is_Some (FAIRModel.vulnerability (fair_model self))
         /\ is_Some (FAIRModel.loss_magnitude (fair_model self)))
  /\ (FAIRModel.tef (fair_model self) = None ->
      run_simulation self g
      = (inl (ValueError "Threat Event Frequency not set"), (self, g)))
  /\ (is_Some (FAIRModel.tef (fair_model self)) ->
      FAIRModel.vulnerability (fair_model self) = None ->
      run_simulation self g
      = (inl (ValueError "Vulnerability not set"), (self, g)))
  /\ (is_Some (FAIRModel.tef (fair_model self)) ->
      is_Some (FAIRModel.vulnerability (fair_model self)) ->
      FAIRModel.loss_magnitude (fair_model self) = None ->
      run_simulation self g
      = (inl (ValueError "Loss Magnitude not set"), (self, g))).
Proof.
  split; [apply validate_inputs_ok|].
  unfold run_simulation, and_then, raising, FAIRModel.validate_inputs.
  repeat split.
  - by intros ->.
  - by intros [? ->] ->.
  - by intros [? ->] [? ->] ->.
Qed.

End Simulation.

Section StatisticsFacts.
Context {pd : Pandas}.


End StatisticsFacts.

(** The sampler can raise on a parameter its constructor accepted: here the
    square of the range underflows to zero and the PERT shape derivation
    divides by it.  Such a model passes [validate_inputs] and has no table. *)
Lemma pert_shape_division_raises :
  LossInput.new 0 1e-200 None "pert" = inr tiny_pert
  /\ (_generate_distribution_sample (np := Standin.numpy) tiny_pert 3 0%Z).1
     = inl (ZeroDivisionError "float division by zero").
Proof. vm_compute. split; reflexivity. Qed.

(** C1 on the example model, three draws per factor, and on a model whose
    first sampler call raises. *)
Lemma run_simulation_table_witness :
  (returned (_generate_distribution_sample (np := Standin.numpy) example_tef 3 0%Z)
   /\ returned (_generate_distribution_sample (np := Standin.numpy)
                  example_vulnerability 3 3%Z)
   /\ returned (_generate_distribution_sample (np := Standin.numpy)
                  example_loss 3 6%Z)
   /\ exists tef_samples vulnerability_samples lef_samples
             loss_magnitude_samples ale_samples : list float,
     let df : DataFrame :=
       [ ("TEF", tef_samples); ("Vulnerability", vulnerability_samples);
         ("LEF", lef_samples); ("Loss Magnitude", loss_magnitude_samples);
         ("ALE", ale_samples) ] in
     run_simulation (np := Standin.numpy) (__init__ example_model 3) 0%Z
     = (inr df, (mk example_model 3 (Some df), 42%Z))
     /\ (_generate_distribution_sample (np := Standin.numpy) example_tef 3 0%Z).1
        = inr tef_samples
     /\ (_generate_distribution_sample (np := Standin.numpy)
           example_vulnerability 3 3%Z).1
        = inr vulnerability_samples
     /\ (_generate_distribution_sample (np := Standin.numpy) example_loss 3 6%Z).1
        = inr loss_magnitude_samples
     /\ nrows df = 3%nat
     /\ Forall (fun c => length c.2 = 3%nat) df
     /\ forall i, (i < 3)%nat ->
          exists t v l : float,
            tef_samples !! i = Some t
            /\ vulnerability_samples !! i = Some v
            /\ loss_magnitude_samples !! i = Some l
            /\ lef_samples !! i = Some (t * v)
            /\ ale_samples !! i = Some (t * v * l))
  /\ (_generate_distribution_sample (np := Standin.numpy) flat_triangular 3 0%Z).1
     = inl (ValueError "left == right")
  /\ run_simulation (np := Standin.numpy) (__init__ flat_model 3) 0%Z
     = (inl (ValueError "left == right"), (__init__ flat_model 3, 0%Z)).
Proof.
  assert (Ht : returned (_generate_distribution_sample (np := Standin.numpy)
                           example_tef 3 0%Z))
    by (exists example_tef_samples; vm_compute; reflexivity).
  assert (Hv : returned (_generate_distribution_sample (np := Standin.numpy)
                           example_vulnerability 3 3%Z))
    by (exists example_vulnerability_samples; vm_compute; reflexivity).
  assert (Hl : returned (_generate_distribution_sample (np := Standin.numpy)
                           example_loss 3 6%Z))
    by (exists example_loss_samples; vm_compute; reflexivity).
  assert (He : (_generate_distribution_sample (np := Standin.numpy)
                  flat_triangular 3 0%Z).1
               = inl (ValueError "left == right"))
    by (vm_compute; reflexivity).
  split; [|split; [exact He|]].
  - split; [exact Ht|]. split; [exact Hv|]. split; [exact Hl|].
    exact (proj1 (run_simulation_table (np := Standin.numpy)
                    "Data breach" "Loss of customer records"
                    example_tef example_vulnerability example_loss 3 None 0%Z)
             Ht Hv Hl).
  - exact (proj1 (proj2 (proj2 (run_simulation_table (np := Standin.numpy)
                    "Outage" "Loss of service"
                    flat_triangular example_vulnerability example_loss
                    3 None 0%Z)))
             (ValueError "left == right") He).
Defined.

(** C2 on a model with the vulnerability unset. *)
Lemma from_dict_to_dict_witness :
  TEFInput.new 0.5 3 None "pert" = inr partial_tef
  /\ LossInput.new 1000 5000 None "Uniform" = inr partial_loss
  /\ constructed partial_model
  /\ FAIRModel.from_dict (FAIRModel.to_dict partial_model) = inr partial_model.
Proof.
  assert (Ht : TEFInput.new 0.5 3 None "pert" = inr partial_tef)
    by (vm_compute; reflexivity).
  assert (Hl : LossInput.new 1000 5000 None "Uniform" = inr partial_loss)
    by (vm_compute; reflexivity).
  assert (Hc : constructed partial_model).
  { split; [|split]; intros s [= <-]; eauto 6. }
  split; [exact Ht|]. split; [exact Hl|]. split; [exact Hc|].
  exact (from_dict_to_dict partial_model Hc).
Defined.

(** C5 on a PERT parameter with equal bounds and on one whose mean is the
    lower bound. *)
Lemma pert_degenerate_draws_witness :
  lower (distribution flat_pert) = "pert"
  /\ (max_value flat_pert - min_value flat_pert =? 0) = true
  /\ _generate_distribution_sample (np := Standin.numpy) flat_pert 4 7%Z
     = (inr [1000; 1000; 1000; 1000],
        (LossInput.mk 1000 1000 (Some 1000) "PERT", 7%Z))
  /\ lower (distribution low_pert) = "pert"
  /\ (max_value low_pert - min_value low_pert =? 0) = false
  /\ (pert_mu low_pert =? min_value low_pert) = true
  /\ _generate_distribution_sample (np := Standin.numpy) low_pert 2 7%Z
     = (inr [0; 0], (low_pert, 7%Z)).
Proof.
  split; [reflexivity|]. split; [reflexivity|].
  split; [exact (proj1 (pert_degenerate_draws (np := Standin.numpy)
                          flat_pert 4 7%Z eq_refl) eq_refl)|].
  split; [reflexivity|]. split; [reflexivity|]. split; [reflexivity|].
  exact (proj2 (pert_degenerate_draws (np := Standin.numpy) low_pert 2 7%Z eq_refl)
           eq_refl eq_refl).
Defined.


(** C10 on kinds written with capitals.  ["PERT"] with a mean on the lower
    bound gives the constant draws of the PERT branch and leaves the
    generator alone, where the same parameter under an unknown kind gives
    uniform draws; ["PERT"] without [most_likely] has it assigned, the
    unknown kind has not; ["Triangular"] gives numpy's triangular draws,
    which are not the uniform ones.  The constructor leaves [most_likely]
    unset under ["PERT"]. *)
Lemma kind_is_lowered_by_sampler_not_by_constructor_witness :
  (same_up_to_case (distribution capital_low_pert) "pert" = true
   /\ _generate_distribution_sample (np := Standin.numpy) capital_low_pert 3 0%Z
      = (inr [0; 0; 0], (capital_low_pert, 0%Z))
   /\ _generate_distribution_sample (np := Standin.numpy) weibull_low 3 0%Z
      = on weibull_low (@np_random_uniform Standin.numpy 0 10 3%nat 0%Z)
   /\ (_generate_distribution_sample (np := Standin.numpy) weibull_low 3 0%Z).2.2
      = 3%Z
   /\ same_draws
        (draws_of (_generate_distribution_sample (np := Standin.numpy)
                     capital_low_pert 3 0%Z))
        (draws_of (_generate_distribution_sample (np := Standin.numpy)
                     weibull_low 3 0%Z))
      = false)
  /\ (same_up_to_case (distribution capital_pert_loss) "pert" = true
      /\ most_likely (_generate_distribution_sample (np := Standin.numpy)
                        capital_pert_loss 3 0%Z).2.1 = Some 5
      /\ most_likely (_generate_distribution_sample (np := Standin.numpy)
                        weibull_pert_loss 3 0%Z).2.1 = None)
  /\ (same_up_to_case (distribution capital_mode_triangular) "triangular" = true
      /\ _generate_distribution_sample (np := Standin.numpy)
           capital_mode_triangular 3 0%Z
         = on capital_mode_triangular
             (@np_random_triangular Standin.numpy 1 (Some 2) 5 3%nat 0%Z)
      /\ same_draws
           (draws_of (_generate_distribution_sample (np := Standin.numpy)
                        capital_mode_triangular 3 0%Z))
           (draws_of (_generate_distribution_sample (np := Standin.numpy)
                        weibull_mode 3 0%Z))
         = false)
  /\ (same_up_to_case (distribution capital_pert) (distribution small_pert) = true
      /\ (_generate_distribution_sample (np := Standin.numpy) capital_pert 3 0%Z).1
         = (_generate_distribution_sample (np := Standin.numpy) small_pert 3 0%Z).1)
  /\ TEFInput.new 2 8 None "PERT" = inr (TEFInput.mk 2 8 None "PERT")
  /\ TEFInput.most_likely (TEFInput.mk 2 8 None "PERT") = None.
Proof.
  pose proof kind_is_lowered_by_sampler_not_by_constructor
    as (Hbranch & Hsame & Hnew).
  split; [|split; [|split; [|split; [|split]]]].
  - destruct (Hbranch Standin.numpy _ _ capital_low_pert 3%nat 0%Z)
      as (_ & _ & _ & Hp).
    destruct (Hp eq_refl) as (_ & _ & Hmu & _).
    split; [reflexivity|]. split; [exact (Hmu eq_refl eq_refl)|].
    split; [reflexivity|]. split; [reflexivity|]. vm_compute. reflexivity.
  - destruct (Hbranch Standin.numpy _ _ capital_pert_loss 3%nat 0%Z)
      as (_ & _ & _ & Hp).
    destruct (Hp eq_refl) as (Hml & _).
    split; [reflexivity|]. split; [|reflexivity].
    rewrite Hml. vm_compute. reflexivity.
  - destruct (Hbranch Standin.numpy _ _ capital_mode_triangular 3%nat 0%Z)
      as (_ & Ht & _).
    split; [reflexivity|]. split; [exact (Ht eq_refl)|]. vm_compute. reflexivity.
  - split; [reflexivity|].
    exact (proj1 (Hsame Standin.numpy _ _ _ _ capital_pert small_pert 3%nat 0%Z
                    eq_refl eq_refl eq_refl eq_refl)).
  - reflexivity.
  - exact (proj2 (proj1 (Hnew 2 8 "PERT") (TEFInput.mk 2 8 None "PERT") eq_refl)
             ltac:(intros K; discriminate K) ltac:(intros K; discriminate K)).
Defined.

(** ** Where the code departs from the stated behaviour *)

(** C1 does not hold as stated: these two models hold instances their
    constructors returned and pass [validate_inputs], and a run of three
    samples returns no table.  On the first the square of the PERT range is
    out of range and Python raises; on the second numpy's triangular draw
    rejects equal bounds. *)
Lemma valid_model_run_raises :
  TEFInput.new 0 1e200 None "pert" = inr huge_pert
  /\ VulnerabilityInput.new 0.25 0.75 (Some 0.5) "triangular"
     = inr example_vulnerability
  /\ LossInput.new 100000 2000000 None "lognormal" = inr example_loss
  /\ FAIRModel.validate_inputs huge_model = inr true
  /\ run_simulation (np := Standin.numpy) (__init__ huge_model 3) 0%Z
     = (inl (OverflowError "(34, 'Numerical result out of range')"),
        (__init__ huge_model 3, 0%Z))
  /\ TEFInput.new 2 2 None "triangular" = inr flat_triangular
  /\ FAIRModel.validate_inputs flat_model = inr true
  /\ run_simulation (np := Standin.numpy) (__init__ flat_model 3) 0%Z
     = (inl (ValueError "left == right"), (__init__ flat_model 3, 0%Z)).
Proof. vm_compute. repeat split. Qed.

(** C6 does not hold as stated: sampling this constructed parameter assigns
    its [most_likely], which is [None] before the call and [5] after it. *)
Lemma sampling_assigns_most_likely :
  LossInput.new 0 10 None "PERT" = inr capital_pert_loss
  /\ most_likely capital_pert_loss = None
  /\ most_likely
       (_generate_distribution_sample (np := Standin.numpy)
          capital_pert_loss 3 0%Z).2.1
     = Some 5.
Proof. vm_compute. repeat split. Qed.

(** C8 does not hold as stated: with the three slots unset the error names
    the threat event frequency only; the vulnerability and the loss
    magnitude are unset too and the error does not name them. *)
Lemma unset_slots_not_all_named :
  run_simulation (np := Standin.numpy) (__init__ empty_model 10) 0%Z
  = (inl (ValueError "Threat Event Frequency not set"),
     (__init__ empty_model 10, 0%Z))
  /\ FAIRModel.vulnerability empty_model = None
  /\ error_names (ValueError "Threat Event Frequency not set") "Vulnerability"
     = false
  /\ FAIRModel.loss_magnitude empty_model = None
  /\ error_names (ValueError "Threat Event Frequency not set") "Loss Magnitude"
     = false.
Proof. vm_compute. repeat split. Qed.


(** ** Further properties of the model *)

(** X1. Each setter replaces its own slot and nothing else; setting a slot
    again keeps the last instance; setters of different slots commute; and
    once the three setters have been called, in any order and on any model,
    [validate_inputs] succeeds. *)
Theorem setters_replace_their_slot
    (m : FAIRModel.t) (t t' : TEFInput.t) (v v' : VulnerabilityInput.t)
    (l l' : LossInput.t) :
  FAIRModel.set_threat_event_frequency
    (FAIRModel.set_threat_event_frequency m t) t'
    = FAIRModel.set_threat_event_frequency m t'
  /\ FAIRModel.set_vulnerability (FAIRModel.set_vulnerability m v) v'
     = FAIRModel.set_vulnerability m v'
  /\ FAIRModel.set_loss_magnitude (FAIRModel.set_loss_magnitude m l) l'
     = FAIRModel.set_loss_magnitude m l'
  /\ FAIRModel.set_vulnerability (FAIRModel.set_threat_event_frequency m t) v
     = FAIRModel.set_threat_event_frequency (FAIRModel.set_vulnerability m v) t
  /\ FAIRModel.set_loss_magnitude (FAIRModel.set_threat_event_frequency m t) l
     = FAIRModel.set_threat_event_frequency (FAIRModel.set_loss_magnitude m l) t
  /\ FAIRModel.set_loss_magnitude (FAIRModel.set_vulnerability m v) l
     = FAIRModel.set_vulnerability (FAIRModel.set_loss_magnitude m l) v
  /\ FAIRModel.validate_inputs
       (FAIRModel.set_loss_magnitude
          (FAIRModel.set_vulnerability
             (FAIRModel.set_threat_event_frequency m t) v) l)
     = inr true
  /\ FAIRModel.set_loss_magnitude
       (FAIRModel.set_vulnerability
          (FAIRModel.set_threat_event_frequency m t) v) l
     = FAIRModel.mk (FAIRModel.name m) (FAIRModel.description m)
         (Some t) (Some v) (Some l).
Proof. destruct m. repeat split. Qed.

Lemma of_optional_float_inj (a b : option float) :
  of_optional_float a = of_optional_float b -> a = b.
Proof. destruct a, b; cbn; congruence. Qed.

(** X2. [to_dict] loses nothing: two models with the same dictionary are
    the same model, whatever their slots hold. *)
Theorem to_dict_injective (m1 m2 : FAIRModel.t) :
  FAIRModel.to_dict m1 = FAIRModel.to_dict m2 -> m1 = m2.
Proof.
  destruct m1 as [n1 d1 t1 v1 l1], m2 as [n2 d2 t2 v2 l2].
  unfold FAIRModel.to_dict. cbn [FAIRModel.name FAIRModel.description
    FAIRModel.tef FAIRModel.vulnerability FAIRModel.loss_magnitude].
  intros [= -> -> Ht Hv Hl].
  assert (t1 = t2) as ->.
  { destruct t1 as [[]|], t2 as [[]|]; try discriminate; [|done].
    cbn in Ht. injection Ht as -> -> ->%of_optional_float_inj ->. done. }
  assert (v1 = v2) as ->.
  { destruct v1 as [[]|], v2 as [[]|]; try discriminate; [|done].
    cbn in Hv. injection Hv as -> -> ->%of_optional_float_inj ->. done. }
  assert (l1 = l2) as ->.
  { destruct l1 as [[]|], l2 as [[]|]; try discriminate; [|done].
    cbn in Hl. injection Hl as -> -> ->%of_optional_float_inj ->. done. }
  done.
Qed.

(** X2 on two models built differently. *)
Lemma to_dict_injective_witness :
  FAIRModel.to_dict partial_model_by_setters = FAIRModel.to_dict partial_model
  /\ partial_model_by_setters = partial_model.
Proof.
  assert (H : FAIRModel.to_dict partial_model_by_setters
              = FAIRModel.to_dict partial_model) by reflexivity.
  split; [exact H|]. exact (to_dict_injective _ _ H).
Defined.

Lemma bind_exn_inr {A B : Type} (c : exn + A) (k : A -> exn + B) (b : B) :
  bind_exn c k = inr b -> exists a, c = inr a /\ k a = inr b.
Proof. destruct c as [e|a]; [discriminate|]. cbn. eauto. Qed.

Lemma as_str_inr v s : as_str v = inr s -> v = PyStr s.
Proof. destruct v; cbn; congruence. Qed.

Ltac invert_binds :=
  repeat match goal with
  | H : bind_exn _ _ = inr _ |- _ =>
      apply bind_exn_inr in H as (? & ? & H)
  | H : as_str _ = inr _ |- _ => apply as_str_inr in H; subst
  | H : (if ?c then _ else _) = inr _ |- _ => destruct c eqn:?
  | H : inr _ = inr _ |- _ => injection H as H; subst
  end.

(** What [from_dict] found in a dictionary it accepted. *)
Lemma from_dict_inr (data : pyval) (m : FAIRModel.t) :
  FAIRModel.from_dict data = inr m ->
  exists d_tef d_vulnerability d_loss_magnitude,
    getitem data "name" = inr (PyStr (FAIRModel.name m))
    /\ getitem data "description" = inr (PyStr (FAIRModel.description m))
    /\ getitem data "tef" = inr d_tef
    /\ getitem data "vulnerability" = inr d_vulnerability
    /\ getitem data "loss_magnitude" = inr d_loss_magnitude
    /\ (if truthy d_tef
        then exists mn mx ml d s, TEFInput.new mn mx ml d = inr s
                                  /\ FAIRModel.tef m = Some s
        else FAIRModel.tef m = None)
    /\ (if truthy d_vulnerability
        then exists mn mx ml d s, VulnerabilityInput.new mn mx ml d = inr s
                                  /\ FAIRModel.vulnerability m = Some s
        else FAIRModel.vulnerability m = None)
    /\ (if truthy d_loss_magnitude
        then exists mn mx ml d s, LossInput.new mn mx ml d = inr s
                                  /\ FAIRModel.loss_magnitude m = Some s
        else FAIRModel.loss_magnitude m = None).
Proof.
  unfold FAIRModel.from_dict. intros H.
  invert_binds; do 3 eexists; repeat (split; [eassumption || reflexivity|]);
    repeat match goal with E : truthy _ = _ |- _ => rewrite E; clear E end;
    cbn; repeat split;
    try (do 5 eexists; split; [eassumption|reflexivity]); done.
Qed.

Lemma defaulted_is_Some d mn mx ml :
  str_in d ["triangular"; "pert"] = true -> is_Some (defaulted d mn mx ml).
Proof. unfold defaulted. intros ->. destruct ml; cbn; eauto. Qed.

(** X3. [from_dict] validates what it reads: every instance of a model it
    returns went through the constructor of its class, so its bounds
    satisfy the class's checks and, under the kinds ["triangular"] and
    ["pert"], its [most_likely] is set. *)
Theorem from_dict_returns_constructed (data : pyval) (m : FAIRModel.t) :
  FAIRModel.from_dict data = inr m ->
  constructed m
  /\ (forall s, FAIRModel.tef m = Some s ->
        (TEFInput.min_value s <? 0) = false
        /\ (TEFInput.max_value s <? TEFInput.min_value s) = false
        /\ (str_in (TEFInput.distribution s) ["triangular"; "pert"] = true ->
            is_Some (TEFInput.most_likely s)))
  /\ (forall s, FAIRModel.vulnerability m = Some s ->
        (0 <=? VulnerabilityInput.min_value s)
          && (VulnerabilityInput.min_value s <=? 1) = true
        /\ (0 <=? VulnerabilityInput.max_value s)
          && (VulnerabilityInput.max_value s <=? 1) = true
        /\ (VulnerabilityInput.max_value s <? VulnerabilityInput.min_value s) = false
        /\ (str_in (VulnerabilityInput.distribution s) ["triangular"; "pert"] = true ->
            is_Some (VulnerabilityInput.most_likely s)))
  /\ (forall s, FAIRModel.loss_magnitude m = Some s ->
        (LossInput.min_value s <? 0) = false
        /\ (LossInput.max_value s <? LossInput.min_value s) = false
        /\ (str_in (LossInput.distribution s) ["triangular"; "pert"] = true ->
            is_Some (LossInput.most_likely s))).
Proof.
  intros (dt & dv & dl & _ & _ & _ & _ & _ & Ht & Hv & Hl)%from_dict_inr.
  assert (Ct : forall s, FAIRModel.tef m = Some s ->
            exists mn mx ml d, TEFInput.new mn mx ml d = inr s).
  { intros s Es. destruct (truthy dt); [|congruence].
    destruct Ht as (mn & mx & ml & d & s' & E & Es'). exists mn, mx, ml, d.
    congruence. }
  assert (Cv : forall s, FAIRModel.vulnerability m = Some s ->
            exists mn mx ml d, VulnerabilityInput.new mn mx ml d = inr s).
  { intros s Es. destruct (truthy dv); [|congruence].
    destruct Hv as (mn & mx & ml & d & s' & E & Es'). exists mn, mx, ml, d.
    congruence. }
  assert (Cl : forall s, FAIRModel.loss_magnitude m = Some s ->
            exists mn mx ml d, LossInput.new mn mx ml d = inr s).
  { intros s Es. destruct (truthy dl); [|congruence].
    destruct Hl as (mn & mx & ml & d & s' & E & Es'). exists mn, mx, ml, d.
    congruence. }
  split; [by repeat split|]. split; [|split].
  - intros s (mn & mx & ml & d & (E1 & E2 & ->)%TEFInput_new_inr)%Ct. cbn.
    eauto using defaulted_is_Some.
  - intros s (mn & mx & ml & d & (E1 & E2 & E3 & ->)%VulnerabilityInput_new_inr)%Cv.
    cbn. eauto using defaulted_is_Some.
  - intros s (mn & mx & ml & d & (E1 & E2 & ->)%LossInput_new_inr)%Cl. cbn.
    eauto using defaulted_is_Some.
Qed.

(** X3 on the dictionary of a constructed model. *)
Lemma from_dict_returns_constructed_witness :
  FAIRModel.from_dict (FAIRModel.to_dict partial_model) = inr partial_model
  /\ constructed partial_model
  /\ (TEFInput.min_value partial_tef <? 0) = false
  /\ is_Some (TEFInput.most_likely partial_tef).
Proof.
  assert (H : FAIRModel.from_dict (FAIRModel.to_dict partial_model)
              = inr partial_model) by (vm_compute; reflexivity).
  pose proof (from_dict_returns_constructed _ _ H) as (Hc & Ht & _).
  destruct (Ht partial_tef eq_refl) as (Hmin & _ & Hml).
  split; [exact H|]. split; [exact Hc|]. split; [exact Hmin|].
  exact (Hml eq_refl).
Defined.

(** X4. [from_dict] returns only on a dictionary that has the five keys
    [name], [description], [tef], [vulnerability] and [loss_magnitude]
    (a missing key raises [KeyError]); the model takes its name and
    description from it, and a slot is populated exactly when its entry is
    true in a condition: [None], and also an empty dictionary, leave the
    slot unset without an error. *)
Theorem from_dict_reads_five_keys (data : pyval) (m : FAIRModel.t) :
  FAIRModel.from_dict data = inr m ->
  exists d_tef d_vulnerability d_loss_magnitude : pyval,
    getitem data "name" = inr (PyStr (FAIRModel.name m))
    /\ getitem data "description" = inr (PyStr (FAIRModel.description m))
    /\ getitem data "tef" = inr d_tef
    /\ getitem data "vulnerability" = inr d_vulnerability
    /\ getitem data "loss_magnitude" = inr d_loss_magnitude
    /\ (is_Some (FAIRModel.tef m) <-> truthy d_tef = true)
    /\ (is_Some (FAIRModel.vulnerability m) <-> truthy d_vulnerability = true)
    /\ (is_Some (FAIRModel.loss_magnitude m) <-> truthy d_loss_magnitude = true).
Proof.
  intros (dt & dv & dl & Hn & Hd & Et & Ev & El & Ht & Hv & Hl)%from_dict_inr.
  exists dt, dv, dl. repeat (split; [assumption|]).
  split; [|split].
  - destruct (truthy dt); [destruct Ht as (? & ? & ? & ? & ? & _ & ->)|rewrite Ht];
      split; eauto; try discriminate. by intros [? [=]].
  - destruct (truthy dv); [destruct Hv as (? & ? & ? & ? & ? & _ & ->)|rewrite Hv];
      split; eauto; try discriminate. by intros [? [=]].
  - destruct (truthy dl); [destruct Hl as (? & ? & ? & ? & ? & _ & ->)|rewrite Hl];
      split; eauto; try discriminate. by intros [? [=]].
Qed.

(** X4 on a dictionary with an empty [tef] entry, and the [KeyError] of a
    dictionary without [description]. *)
Lemma from_dict_reads_five_keys_witness :
  FAIRModel.from_dict sparse_dict = inr (FAIRModel.__init__ "Draft" "")
  /\ FAIRModel.from_dict (PyDict [("name", PyStr "Draft")])
     = inl (KeyError "description")
  /\ exists d_tef d_vulnerability d_loss_magnitude : pyval,
    getitem sparse_dict "name" = inr (PyStr "Draft")
    /\ getitem sparse_dict "description" = inr (PyStr "")
    /\ getitem sparse_dict "tef" = inr d_tef
    /\ getitem sparse_dict "vulnerability" = inr d_vulnerability
    /\ getitem sparse_dict "loss_magnitude" = inr d_loss_magnitude
    /\ (is_Some (FAIRModel.tef (FAIRModel.__init__ "Draft" ""))
        <-> truthy d_tef = true)
    /\ (is_Some (FAIRModel.vulnerability (FAIRModel.__init__ "Draft" ""))
        <-> truthy d_vulnerability = true)
    /\ (is_Some (FAIRModel.loss_magnitude (FAIRModel.__init__ "Draft" ""))
        <-> truthy d_loss_magnitude = true).
Proof.
  assert (H : FAIRModel.from_dict sparse_dict = inr (FAIRModel.__init__ "Draft" ""))
    by (vm_compute; reflexivity).
  split; [exact H|]. split; [vm_compute; reflexivity|].
  exact (from_dict_reads_five_keys _ _ H).
Defined.

(** X5. Validating an instance again changes nothing: [__post_init__] on an
    instance a constructor returned returns that instance. *)
Theorem post_init_idempotent (mn mx : float) (ml : option float) (d : string) :
  (forall s, TEFInput.new mn mx ml d = inr s -> TEFInput.__post_init__ s = inr s)
  /\ (forall s, VulnerabilityInput.new mn mx ml d = inr s ->
        VulnerabilityInput.__post_init__ s = inr s)
  /\ (forall s, LossInput.new mn mx ml d = inr s -> LossInput.__post_init__ s = inr s).
Proof.
  split; [|split]; intros [] E.
  - apply (TEFInput_new_again _ _ _ _ _ E).
  - apply (VulnerabilityInput_new_again _ _ _ _ _ E).
  - apply (LossInput_new_again _ _ _ _ _ E).
Qed.

(** X5 on a PERT input whose [most_likely] the constructor filled in. *)
Lemma post_init_idempotent_witness :
  TEFInput.new 0.5 3 None "pert" = inr partial_tef
  /\ TEFInput.__post_init__ partial_tef = inr partial_tef.
Proof.
  assert (H : TEFInput.new 0.5 3 None "pert" = inr partial_tef)
    by (vm_compute; reflexivity).
  split; [exact H|].
  exact (proj1 (post_init_idempotent 0.5 3 None "pert") partial_tef H).
Defined.

(** X6. The constructors accept or reject on the bounds alone: whether one
    raises does not depend on [most_likely] nor on the kind, a
    [most_likely] that is given is stored as it is, even outside
    [min_value, max_value], and the kind is stored as it is, even when no
    branch of the sampler knows it. *)
Theorem construction_checks_bounds_only
    (mn mx : float) (ml ml' : option float) (d d' : string) (x : float) :
  (is_inr_TEF mn mx ml d <-> is_inr_TEF mn mx ml' d')
  /\ (is_inr_Vulnerability mn mx ml d <-> is_inr_Vulnerability mn mx ml' d')
  /\ (is_inr_Loss mn mx ml d <-> is_inr_Loss mn mx ml' d')
  /\ (forall s, TEFInput.new mn mx (Some x) d = inr s ->
        s = TEFInput.mk mn mx (Some x) d)
  /\ (forall s, VulnerabilityInput.new mn mx (Some x) d = inr s ->
        s = VulnerabilityInput.mk mn mx (Some x) d)
  /\ (forall s, LossInput.new mn mx (Some x) d = inr s ->
        s = LossInput.mk mn mx (Some x) d).
Proof.
  unfold is_inr_TEF, is_inr_Vulnerability, is_inr_Loss.
  assert (Hd : forall k, defaulted k mn mx (Some x) = Some x).
  { intros k. unfold defaulted. by rewrite andb_false_r. }
  split; [|split; [|split; [|split; [|split]]]].
  - split; intros [s (E1 & E2 & _)%TEFInput_new_inr];
      eexists; by apply TEFInput_new_inr.
  - split; intros [s (E1 & E2 & E3 & _)%VulnerabilityInput_new_inr];
      eexists; by apply VulnerabilityInput_new_inr.
  - split; intros [s (E1 & E2 & _)%LossInput_new_inr];
      eexists; by apply LossInput_new_inr.
  - intros s (_ & _ & ->)%TEFInput_new_inr. by rewrite Hd.
  - intros s (_ & _ & _ & ->)%VulnerabilityInput_new_inr. by rewrite Hd.
  - intros s (_ & _ & ->)%LossInput_new_inr. by rewrite Hd.
Qed.

(** X6 on a [most_likely] far above the upper bound and an unknown kind. *)
Lemma construction_checks_bounds_only_witness :
  TEFInput.new 0 10 (Some 50) "gamma" = inr (TEFInput.mk 0 10 (Some 50) "gamma")
  /\ is_inr_TEF 0 10 (Some 50) "gamma"
  /\ is_inr_TEF 0 10 None "pert".
Proof.
  assert (H : TEFInput.new 0 10 (Some 50) "gamma"
              = inr (TEFInput.mk 0 10 (Some 50) "gamma"))
    by (vm_compute; reflexivity).
  assert (Ha : is_inr_TEF 0 10 (Some 50) "gamma") by (eexists; exact H).
  split; [exact H|]. split; [exact Ha|].
  exact (proj1 (proj1 (construction_checks_bounds_only
                         0 10 (Some 50) None "gamma" "pert" 50)) Ha).
Defined.

(** ** Further properties of the sampler *)

Section SamplerMore.
Context {np : NumpyRandom} {P : Type} `{Param P}.

(** X7. Whatever the branch, a sampler call that returns gives exactly
    [size] draws, and leaves its parameter as [after_sampling] says: as it
    was, but for a missing [most_likely] filled in by the PERT branch. *)
Theorem sampler_returns_size_draws (param param' : P) (size : nat)
    (g g' : RandomState) (a : list float) :
  _generate_distribution_sample param size g = (inr a, (param', g')) ->
  length a = size /\ param' = after_sampling param.
Proof.
  intros E. split; [by eapply sample_shape|].
  pose proof (sample_param param size g) as Hp. by rewrite E in Hp.
Qed.

Lemma after_sampling_idem (param : P) :
  after_sampling (after_sampling param) = after_sampling param.
Proof.
  unfold after_sampling.
  destruct (String.eqb (lower (distribution param)) "pert") eqn:Ep;
    [|by rewrite Ep].
  destruct (most_likely param) as [m|] eqn:Em; [by rewrite Ep, Em|].
  by rewrite distribution_set, Ep, most_likely_set.
Qed.

(** X8. The sampler's assignment is made once and changes no draw: sampling
    the parameter as a first call left it gives, from the same generator
    state, the same outcome as sampling the original, and leaves the
    parameter as the first call did. *)
Theorem sampling_again_changes_nothing (param : P) (size : nat) (g : RandomState) :
  after_sampling (after_sampling param) = after_sampling param
  /\ _generate_distribution_sample (after_sampling param) size g
     = _generate_distribution_sample param size g.
Proof.
  split; [apply after_sampling_idem|].
  unfold after_sampling at 1.
  destruct (String.eqb (lower (distribution param)) "pert") eqn:Ep; [|done].
  destruct (most_likely param) as [m|] eqn:Em; [done|].
  unfold _generate_distribution_sample, midpoint.
  rewrite distribution_set, most_likely_set, Em.
  apply String.eqb_eq in Ep. rewrite Ep. cbn [String.eqb Ascii.eqb Bool.eqb].
  rewrite !min_value_set, !max_value_set.
  repeat case_match; simplify_eq; reflexivity.
Qed.

End SamplerMore.

(** X9. A kind that is "triangular" in another letter case gets no midpoint
    from the constructor and none from the sampler: an input constructed
    without [most_likely] under such a kind is handed to numpy's triangular
    draw with [None] as its mode, and the outcome of the call is numpy's. *)
Theorem triangular_in_other_case_has_no_mode
    {np : NumpyRandom} (mn mx : float) (d : string) (size : nat) (g : RandomState) :
  lower d = "triangular" -> d <> "triangular" ->
  (forall s, TEFInput.new mn mx None d = inr s ->
     _generate_distribution_sample s size g
     = on s (np_random_triangular mn None mx size g))
  /\ (forall s, VulnerabilityInput.new mn mx None d = inr s ->
     _generate_distribution_sample s size g
     = on s (np_random_triangular mn None mx size g))
  /\ (forall s, LossInput.new mn mx None d = inr s ->
     _generate_distribution_sample s size g
     = on s (np_random_triangular mn None mx size g)).
Proof.
  intros El Hd.
  assert (Hp : d <> "pert") by (intros ->; discriminate El).
  assert (Hn : defaulted d mn mx None = None).
  { unfold defaulted. by rewrite (proj2 (str_in_kinds_false d)). }
  split; [|split].
  - intros s (_ & _ & ->)%TEFInput_new_inr. rewrite Hn.
    unfold _generate_distribution_sample. cbn. by rewrite El.
  - intros s (_ & _ & _ & ->)%VulnerabilityInput_new_inr. rewrite Hn.
    unfold _generate_distribution_sample. cbn. by rewrite El.
  - intros s (_ & _ & ->)%LossInput_new_inr. rewrite Hn.
    unfold _generate_distribution_sample. cbn. by rewrite El.
Qed.

(** X7 on the lognormal loss of the example model. *)
Lemma sampler_returns_size_draws_witness :
  _generate_distribution_sample (np := Standin.numpy) example_loss 3 6%Z
    = (inr example_loss_samples, (example_loss, 42%Z))
  /\ length example_loss_samples = 3%nat
  /\ example_loss = after_sampling example_loss.
Proof.
  assert (E : _generate_distribution_sample (np := Standin.numpy) example_loss 3 6%Z
              = (inr example_loss_samples, (example_loss, 42%Z)))
    by (vm_compute; reflexivity).
  split; [exact E|].
  exact (sampler_returns_size_draws (np := Standin.numpy) _ _ _ _ _ _ E).
Defined.

(** X9 on the kind ["Triangular"]: the stand-in, as numpy, refuses the
    missing mode. *)
Lemma triangular_in_other_case_has_no_mode_witness :
  lower "Triangular" = "triangular"
  /\ TEFInput.new 1 5 None "Triangular" = inr capital_triangular
  /\ _generate_distribution_sample (np := Standin.numpy) capital_triangular 3 0%Z
     = on capital_triangular
         (@np_random_triangular Standin.numpy 1 None 5 3%nat 0%Z)
  /\ (_generate_distribution_sample (np := Standin.numpy)
        capital_triangular 3 0%Z).1
     = inl (TypeError "must be real number, not NoneType").
Proof.
  assert (El : lower "Triangular" = "triangular") by reflexivity.
  assert (Hd : "Triangular" <> "triangular") by (intros K; discriminate K).
  assert (Hs : TEFInput.new 1 5 None "Triangular" = inr capital_triangular)
    by (vm_compute; reflexivity).
  split; [exact El|]. split; [exact Hs|].
  split; [|vm_compute; reflexivity].
  exact (proj1 (triangular_in_other_case_has_no_mode (np := Standin.numpy)
                  1 5 "Triangular" 3 0%Z El Hd) capital_triangular Hs).
Defined.

(** ** Further properties of the simulation *)

Section SimulationMore.
Context {np : NumpyRandom}.

Ltac split_sample :=
  match goal with
  | |- context [_generate_distribution_sample ?p ?n ?g] =>
      let E := fresh "E" in
      let r := fresh "r" in
      let p' := fresh "p" in
      let g' := fresh "g" in
      destruct (_generate_distribution_sample p n g) as [r [p' g']] eqn:E;
      apply (f_equal (fun o => o.2.1)) in E; rewrite sample_param in E;
      cbn [fst snd] in E; subst p'; destruct r; cbn
  end.

(** What a run keeps of the simulation object. *)
Lemma run_simulation_frame (self : t) (g : RandomState) :
  let out := run_simulation self g in
  let self' := out.2.1 in
  num_simulations self' = num_simulations self
  /\ FAIRModel.name (fair_model self') = FAIRModel.name (fair_model self)
  /\ FAIRModel.description (fair_model self')
     = FAIRModel.description (fair_model self)
  /\ (FAIRModel.tef (fair_model self') = FAIRModel.tef (fair_model self)
      \/ FAIRModel.tef (fair_model self')
         = after_sampling <$> FAIRModel.tef (fair_model self))
  /\ (FAIRModel.vulnerability (fair_model self')
        = FAIRModel.vulnerability (fair_model self)
      \/ FAIRModel.vulnerability (fair_model self')
         = after_sampling <$> FAIRModel.vulnerability (fair_model self))
  /\ (FAIRModel.loss_magnitude (fair_model self')
        = FAIRModel.loss_magnitude (fair_model self)
      \/ FAIRModel.loss_magnitude (fair_model self')
         = after_sampling <$> FAIRModel.loss_magnitude (fair_model self))
  /\ (forall e, out.1 = inl e -> results self' = results self)
  /\ (forall df, out.1 = inr df -> results self' = Some df).
Proof.
  destruct self as [[name description tef vulnerability loss_magnitude] n old].
  cbv zeta.
  unfold run_simulation, and_then, raising, sample_tef, sample_vulnerability,
    sample_loss_magnitude, with_tef, with_vulnerability, with_loss_magnitude,
    FAIRModel.validate_inputs.
  cbn.
  destruct tef as [tef|]; [|cbn; repeat split; eauto; discriminate].
  destruct vulnerability as [vulnerability|];
    [|cbn; repeat split; eauto; discriminate].
  destruct loss_magnitude as [loss_magnitude|];
    [|cbn; repeat split; eauto; discriminate].
  cbn.
  split_sample; [repeat split; eauto; discriminate|].
  split_sample; [repeat split; eauto; discriminate|].
  split_sample; [repeat split; eauto; discriminate|].
  destruct (np_multiply _ _); cbn; [repeat split; eauto; discriminate|].
  destruct (np_multiply _ _); cbn; [repeat split; eauto; discriminate|].
  unfold pd_DataFrame.
  match goal with |- context [if ?c then _ else _] => destruct c end; cbn;
    [|repeat split; eauto; discriminate].
  repeat split; eauto; [discriminate|]. by intros df [= ->].
Qed.

(** X10. A run never touches the sample count, the name or the description
    of the model, and a slot after the run is the slot before it, or that
    slot as the sampler leaves it.  The stored results change only when the
    run returns a table, which is then the one stored: a run that raises,
    at validation or later, leaves the stored results as they were. *)
Theorem run_simulation_keeps_the_rest (self : t) (g : RandomState) :
  let out := run_simulation self g in
  let self' := out.2.1 in
  num_simulations self' = num_simulations self
  /\ FAIRModel.name (fair_model self') = FAIRModel.name (fair_model self)
  /\ FAIRModel.description (fair_model self')
     = FAIRModel.description (fair_model self)
  /\ (FAIRModel.tef (fair_model self') = FAIRModel.tef (fair_model self)
      \/ FAIRModel.tef (fair_model self')
         = after_sampling <$> FAIRModel.tef (fair_model self))
  /\ (FAIRModel.vulnerability (fair_model self')
        = FAIRModel.vulnerability (fair_model self)
      \/ FAIRModel.vulnerability (fair_model self')
         = after_sampling <$> FAIRModel.vulnerability (fair_model self))
  /\ (FAIRModel.loss_magnitude (fair_model self')
        = FAIRModel.loss_magnitude (fair_model self)
      \/ FAIRModel.loss_magnitude (fair_model self')
         = after_sampling <$> FAIRModel.loss_magnitude (fair_model self))
  /\ (forall e, out.1 = inl e -> results self' = results self)
  /\ (forall df, out.1 = inr df -> results self' = Some df).
Proof. apply run_simulation_frame. Qed.

(** What a run that returned went through. *)
Lemma run_simulation_inr_inv (self self' : t) (g g' : RandomState) (df : DataFrame) :
  run_simulation self g = (inr df, (self', g')) ->
  exists name description tef vulnerability loss_magnitude
         tef' vulnerability' loss_magnitude' g1 g2
         tef_samples vulnerability_samples lef_samples
         loss_magnitude_samples ale_samples,
    fair_model self
      = FAIRModel.mk name description
          (Some tef) (Some vulnerability) (Some loss_magnitude)
    /\ _generate_distribution_sample tef (num_simulations self) g
       = (inr tef_samples, (tef', g1))
    /\ _generate_distribution_sample vulnerability (num_simulations self) g1
       = (inr vulnerability_samples, (vulnerability', g2))
    /\ _generate_distribution_sample loss_magnitude (num_simulations self) g2
       = (inr loss_magnitude_samples, (loss_magnitude', g'))
    /\ df = [ ("TEF", tef_samples); ("Vulnerability", vulnerability_samples);
              ("LEF", lef_samples); ("Loss Magnitude", loss_magnitude_samples);
              ("ALE", ale_samples) ]
    /\ self' = mk (FAIRModel.mk name description
                     (Some tef') (Some vulnerability') (Some loss_magnitude'))
                  (num_simulations self) (Some df)
    /\ Forall (fun c => length c.2 = num_simulations self) df
    /\ forall i, (i < num_simulations self)%nat ->
         exists t v l : float,
           tef_samples !! i = Some t
           /\ vulnerability_samples !! i = Some v
           /\ loss_magnitude_samples !! i = Some l
           /\ lef_samples !! i = Some (t * v)
           /\ ale_samples !! i = Some (t * v * l).
Proof.
  destruct self as [[name description tef vulnerability loss_magnitude] n old].
  intros Hrun.
  destruct tef as [tef|]; [|discriminate Hrun].
  destruct vulnerability as [vulnerability|]; [|discriminate Hrun].
  destruct loss_magnitude as [loss_magnitude|]; [|discriminate Hrun].
  destruct (_generate_distribution_sample tef n g)
    as [[e|tef_samples] [tef' g1]] eqn:Et.
  { unfold run_simulation, and_then, raising, sample_tef in Hrun.
    cbn in Hrun. rewrite Et in Hrun. discriminate Hrun. }
  destruct (_generate_distribution_sample vulnerability n g1)
    as [[e|vulnerability_samples] [vulnerability' g2]] eqn:Ev.
  { unfold run_simulation, and_then, raising, sample_tef, sample_vulnerability,
      with_tef in Hrun.
    cbn in Hrun. rewrite Et in Hrun. cbn in Hrun. rewrite Ev in Hrun.
    discriminate Hrun. }
  destruct (_generate_distribution_sample loss_magnitude n g2)
    as [[e|loss_magnitude_samples] [loss_magnitude' g3]] eqn:El.
  { unfold run_simulation, and_then, raising, sample_tef, sample_vulnerability,
      sample_loss_magnitude, with_tef, with_vulnerability in Hrun.
    cbn in Hrun. rewrite Et in Hrun. cbn in Hrun. rewrite Ev in Hrun.
    cbn in Hrun. rewrite El in Hrun. discriminate Hrun. }
  destruct (run_simulation_of_draws name description tef vulnerability
              loss_magnitude n old g g1 g2 g3 _ _ _ _ _ _ Et Ev El)
    as (lef_samples & ale_samples & H).
  cbv zeta in H. destruct H as (Hrun' & _ & Hcols & Hrel).
  rewrite Hrun' in Hrun. injection Hrun as <- <- <-.
  exists name, description, tef, vulnerability, loss_magnitude,
    tef', vulnerability', loss_magnitude', g1, g2,
    tef_samples, vulnerability_samples, lef_samples,
    loss_magnitude_samples, ale_samples.
  cbn [fair_model num_simulations]. repeat split; done.
Qed.

(** X11. A run returns a table only for a model that passes
    [validate_inputs].  The table then has the five columns [TEF],
    [Vulnerability], [LEF], [Loss Magnitude], [ALE] in this order, each of
    [num_simulations] values, and every row agrees with the scalar formulas
    of the model: [LEF] is [calculate_loss_event_frequency] of the row's
    [TEF] and [Vulnerability], [ALE] is [calculate_risk] of that and the
    row's [Loss Magnitude]. *)
Theorem run_simulation_rows_follow_the_model
    (self self' : t) (g g' : RandomState) (df : DataFrame) :
  run_simulation self g = (inr df, (self', g')) ->
  FAIRModel.validate_inputs (fair_model self) = inr true
  /\ fst <$> df = ["TEF"; "Vulnerability"; "LEF"; "Loss Magnitude"; "ALE"]
  /\ Forall (fun c => length c.2 = num_simulations self) df
  /\ exists tef_samples vulnerability_samples lef_samples
            loss_magnitude_samples ale_samples,
       column df "TEF" = inr tef_samples
       /\ column df "Vulnerability" = inr vulnerability_samples
       /\ column df "LEF" = inr lef_samples
       /\ column df "Loss Magnitude" = inr loss_magnitude_samples
       /\ column df "ALE" = inr ale_samples
       /\ forall i t v l,
            tef_samples !! i = Some t ->
            vulnerability_samples !! i = Some v ->
            loss_magnitude_samples !! i = Some l ->
            lef_samples !! i
              = Some (FAIRModel.calculate_loss_event_frequency t v)
            /\ ale_samples !! i
              = Some (FAIRModel.calculate_risk
                        (FAIRModel.calculate_loss_event_frequency t v) l).
Proof.
  intros (name & description & tef & vulnerability & loss_magnitude
          & tef' & vulnerability' & loss_magnitude' & g1 & g2
          & ts & vs & lefs & ls & ales
          & Hfm & Ht & Hv & Hl & -> & -> & Hcols & Hrel)%run_simulation_inr_inv.
  split; [by rewrite Hfm|]. split; [reflexivity|]. split; [exact Hcols|].
  exists ts, vs, lefs, ls, ales. repeat (split; [reflexivity|]).
  intros i t v l Et Ev El.
  assert (Hi : (i < num_simulations self)%nat).
  { apply lookup_lt_Some in Et.
    by rewrite (sample_shape _ _ _ _ _ _ Ht) in Et. }
  destruct (Hrel i Hi) as (t0 & v0 & l0 & Et0 & Ev0 & El0 & Hlef & Hale).
  unfold FAIRModel.calculate_loss_event_frequency, FAIRModel.calculate_risk.
  by simplify_eq.
Qed.

End SimulationMore.

Section StatisticsMore.
Context {np : NumpyRandom} {pd : Pandas}.

(** X12. After a run that returned, the statistics never raise the usage
    error of a missing run nor a missing column: the value-at-risk is the
    quantile pandas gives on the [ALE] column, of [num_simulations] values,
    and the summary raises only an error that one of its six quantiles of
    that column raised. *)
Theorem statistics_after_a_run
    (self self' : t) (g g' : RandomState) (df : DataFrame) :
  run_simulation self g = (inr df, (self', g')) ->
  exists ale : list float,
    column df "ALE" = inr ale
    /\ length ale = num_simulations self
    /\ (forall q, get_value_at_risk self' q = series_quantile ale q)
    /\ (forall e, get_summary_statistics self' = inl e ->
          exists q, q ∈ summary_percentiles /\ series_quantile ale q = inl e)
    /\ (Forall (fun q => exists x, series_quantile ale q = inr x)
          summary_percentiles ->
        exists stats, get_summary_statistics self' = inr stats).
Proof.
  intros (name & description & tef & vulnerability & loss_magnitude
          & tef' & vulnerability' & loss_magnitude' & g1 & g2
          & ts & vs & lefs & ls & ales
          & Hfm & Ht & Hv & Hl & -> & -> & Hcols & Hrel)%run_simulation_inr_inv.
  exists ales. split; [reflexivity|]. split.
  { rewrite !Forall_cons in Hcols. by destruct Hcols as (_ & _ & _ & _ & ? & _). }
  unfold get_value_at_risk, get_summary_statistics, summary_percentiles.
  cbn [results column find fst snd String.eqb Ascii.eqb Bool.eqb bind_exn].
  split; [done|]. split.
  - intros e.
    destruct (series_quantile ales 0.1) eqn:E10; cbn [bind_exn];
      [intros [= <-]; exists 0.1; split; [repeat constructor|done]|].
    destruct (series_quantile ales 0.25) eqn:E25; cbn [bind_exn];
      [intros [= <-]; exists 0.25; split; [repeat constructor|done]|].
    destruct (series_quantile ales 0.75) eqn:E75; cbn [bind_exn];
      [intros [= <-]; exists 0.75; split; [repeat constructor|done]|].
    destruct (series_quantile ales 0.9) eqn:E90; cbn [bind_exn];
      [intros [= <-]; exists 0.9; split; [repeat constructor|done]|].
    destruct (series_quantile ales 0.95) eqn:E95; cbn [bind_exn];
      [intros [= <-]; exists 0.95; split; [repeat constructor|done]|].
    destruct (series_quantile ales 0.99) eqn:E99; cbn [bind_exn];
      [intros [= <-]; exists 0.99; split; [repeat constructor|done]|].
    discriminate.
  - rewrite !Forall_cons.
    intros ([? ->] & [? ->] & [? ->] & [? ->] & [? ->] & [? ->] & _).
    cbn [bind_exn]. eauto.
Qed.

(** X13. A summary that is returned has the three entries [ALE], [LEF] and
    [Loss_Magnitude] and no other (none for [TEF] or [Vulnerability]); its
    [ALE] entry has eleven statistics and the two others five; and the
    [percentile_95] of [ALE] is the value-at-risk at [0.95], the default
    confidence level. *)
Theorem summary_entries (self : t) (stats : pyval) :
  get_summary_statistics self = inr stats ->
  exists ale_stats lef_stats lm_stats : list (string * pyval),
    stats = PyDict [ ("ALE", PyDict ale_stats); ("LEF", PyDict lef_stats);
                     ("Loss_Magnitude", PyDict lm_stats) ]
    /\ fst <$> ale_stats
       = [ "min"; "max"; "mean"; "median"; "std"; "percentile_10";
           "percentile_25"; "percentile_75"; "percentile_90"; "percentile_95";
           "percentile_99" ]
    /\ fst <$> lef_stats = ["min"; "max"; "mean"; "median"; "std"]
    /\ fst <$> lm_stats = ["min"; "max"; "mean"; "median"; "std"]
    /\ getitem stats "TEF" = inl (KeyError "TEF")
    /\ getitem stats "Vulnerability" = inl (KeyError "Vulnerability")
    /\ exists var_95 : float,
         get_value_at_risk self 0.95 = inr var_95
         /\ getitem (PyDict ale_stats) "percentile_95" = inr (PyFloat var_95).
Proof.
  unfold get_summary_statistics, get_value_at_risk.
  destruct (results self) as [df|]; [|discriminate].
  intros H.
  repeat match goal with
  | H : bind_exn _ _ = inr _ |- _ =>
      let E := fresh "E" in apply bind_exn_inr in H as (? & E & H)
  end.
  injection H as <-.
  do 3 eexists. repeat (split; [reflexivity|]).
  eexists. split; [|reflexivity].
  match goal with E : column df "ALE" = inr _ |- _ => rewrite E end.
  cbn [bind_exn]. assumption.
Qed.

End StatisticsMore.

(** X11 on the example model. *)
Lemma run_simulation_rows_follow_the_model_witness :
  run_simulation (np := Standin.numpy) (__init__ example_model 5) 0%Z
    = (inr (default [] (results example_run)), (example_run, 70%Z))
  /\ FAIRModel.validate_inputs example_model = inr true
  /\ fst <$> default [] (results example_run)
     = ["TEF"; "Vulnerability"; "LEF"; "Loss Magnitude"; "ALE"]
  /\ Forall (fun c => length c.2 = 5%nat) (default [] (results example_run)).
Proof.
  assert (H : run_simulation (np := Standin.numpy) (__init__ example_model 5) 0%Z
              = (inr (default [] (results example_run)), (example_run, 70%Z)))
    by (vm_compute; reflexivity).
  pose proof (run_simulation_rows_follow_the_model (np := Standin.numpy)
                _ _ _ _ _ H) as (Hv & Hk & Hc & _).
  split; [exact H|]. split; [exact Hv|]. split; [exact Hk|]. exact Hc.
Defined.

(** X12 on the example model: the value-at-risk at the median level. *)
Lemma statistics_after_a_run_witness :
  run_simulation (np := Standin.numpy) (__init__ example_model 5) 0%Z
    = (inr (default [] (results example_run)), (example_run, 70%Z))
  /\ exists ale : list float,
       column (default [] (results example_run)) "ALE" = inr ale
       /\ length ale = 5%nat
       /\ get_value_at_risk (pd := Standin.pandas) example_run 0.5
          = series_quantile (Pandas := Standin.pandas) ale 0.5.
Proof.
  assert (H : run_simulation (np := Standin.numpy) (__init__ example_model 5) 0%Z
              = (inr (default [] (results example_run)), (example_run, 70%Z)))
    by (vm_compute; reflexivity).
  split; [exact H|].
  destruct (statistics_after_a_run (np := Standin.numpy) (pd := Standin.pandas)
              _ _ _ _ _ H) as (ale & Hc & Hn & Hq & _).
  exists ale. split; [exact Hc|]. split; [exact Hn|]. exact (Hq 0.5).
Defined.

(** X13 on the summary of the example run. *)
Lemma summary_entries_witness :
  exists stats : pyval,
    get_summary_statistics (pd := Standin.pandas) example_run = inr stats
    /\ getitem stats "TEF" = inl (KeyError "TEF")
    /\ exists var_95 : float,
         get_value_at_risk (pd := Standin.pandas) example_run 0.95 = inr var_95
         /\ (try ale_stats <- getitem stats "ALE"; getitem ale_stats "percentile_95")
            = inr (PyFloat var_95).
Proof.
  destruct (get_summary_statistics (pd := Standin.pandas) example_run)
    as [e|stats] eqn:E; [vm_compute in E; discriminate E|].
  exists stats. split; [reflexivity|].
  destruct (summary_entries (pd := Standin.pandas) example_run stats E)
    as (a & l & m & -> & _ & _ & _ & Ht & _ & x & Hx & Hp).
  split; [exact Ht|]. exists x. split; [exact Hx|]. exact Hp.
Defined.

(** ** The callers of the engine *)

Section PageRun.
Context {np : NumpyRandom} {pd : Pandas}.

(** X14. The page's [run_simulation] works on a new simulation object.
    When it returns, the session holds the table of the run under
    [simulation_results] and its summary under [simulation_summary], the
    summary being the one of that very table, of [num_simulations] rows;
    every other key of the session is as it was.  When the engine's run
    raises, the page raises the same error and the session is untouched. *)
Theorem page_run_stores_table_and_summary
    (fair_model : FAIRModel.t) (num_simulations : nat)
    (session_state : gmap string Risk_Analysis.session_value) (g : RandomState) :
  (forall fair_model' session_state' g',
     Risk_Analysis.run_simulation fair_model num_simulations session_state g
     = (inr tt, (fair_model', session_state', g')) ->
     exists (df : DataFrame) (stats : pyval),
       MonteCarloSimulation.run_simulation
         (__init__ fair_model num_simulations) g
       = (inr df, (mk fair_model' num_simulations (Some df), g'))
       /\ session_state' !! "simulation_results"
          = Some (Risk_Analysis.SessionTable df)
       /\ session_state' !! "simulation_summary"
          = Some (Risk_Analysis.SessionValue stats)
       /\ Forall (fun c => length c.2 = num_simulations) df
       /\ get_summary_statistics (mk fair_model' num_simulations (Some df))
          = inr stats
       /\ forall key, key <> "simulation_results" ->
                      key <> "simulation_summary" ->
                      session_state' !! key = session_state !! key)
  /\ (forall e,
        (MonteCarloSimulation.run_simulation
           (__init__ fair_model num_simulations) g).1 = inl e ->
        exists fair_model' g',
          Risk_Analysis.run_simulation fair_model num_simulations session_state g
          = (inl e, (fair_model', session_state, g'))).
Proof.
  unfold Risk_Analysis.run_simulation.
  destruct (MonteCarloSimulation.run_simulation
              (__init__ fair_model num_simulations) g)
    as [[e|df] [simulation g1]] eqn:Erun.
  - split; [intros ? ? ? [=]|]. intros e' [= <-]. eauto.
  - split; [|intros e' [=]].
    intros fair_model' session_state' g' H.
    pose proof Erun as Einv. apply run_simulation_inr_inv in Einv
      as (name & description & tef & vulnerability & loss_magnitude
          & tef' & vulnerability' & loss_magnitude' & g2 & g3
          & ts & vs & lefs & ls & ales
          & Hfm & Ht & Hv & Hl & Hdf & Hsim & Hcols & Hrel).
    cbn [MonteCarloSimulation.num_simulations __init__] in Hsim, Hcols.
    destruct (get_summary_statistics simulation) as [e|stats] eqn:Es;
      [discriminate H|].
    injection H as <- <- <-.
    exists df, stats. rewrite Hsim in Es |- *.
    cbn [MonteCarloSimulation.fair_model].
    split; [reflexivity|].
    split; [by rewrite lookup_insert_ne, lookup_insert_eq|].
    split; [by rewrite lookup_insert_eq|].
    split; [exact Hcols|]. split; [exact Es|].
    intros key H1 H2. by rewrite !lookup_insert_ne.
Qed.

End PageRun.

Lemma after_sampling_Some {P : Type} `{Param P} (param : P) :
  is_Some (most_likely param) -> after_sampling param = param.
Proof.
  intros [m Em]. unfold after_sampling. rewrite Em. by destruct (String.eqb _ _).
Qed.

Lemma well_shaped_most_likely {P : Type} `{Param P} (param : P) :
  well_shaped param = true -> is_Some (most_likely param).
Proof.
  unfold well_shaped. destruct (most_likely param); [eauto|].
  by rewrite andb_false_r.
Qed.

(** A run leaves a model of well-shaped parameters as it was. *)
Lemma ready_model_unchanged {np : NumpyRandom} (m : FAIRModel.t) (n : nat)
    (g : RandomState) :
  scenario_ready m = true ->
  fair_model (run_simulation (__init__ m n) g).2.1 = m.
Proof.
  intros Hr.
  pose proof (run_simulation_frame (__init__ m n) g) as H. cbv zeta in H.
  destruct H as (_ & Hn & Hd & Ht & Hv & Hl & _).
  destruct (fair_model (run_simulation (__init__ m n) g).2.1)
    as [name' description' tef' vulnerability' loss_magnitude'].
  destruct m as [name description [t|] [v|] [l|]]; try discriminate Hr.
  cbn in *.
  apply andb_true_iff in Hr as [[Wt%well_shaped_most_likely
    Wv%well_shaped_most_likely]%andb_true_iff Wl%well_shaped_most_likely].
  rewrite (after_sampling_Some t Wt) in Ht.
  rewrite (after_sampling_Some v Wv) in Hv.
  rewrite (after_sampling_Some l Wl) in Hl.
  destruct Ht as [-> | ->], Hv as [-> | ->], Hl as [-> | ->]; by subst.
Qed.

(** X15. Loading the sample scenarios raises nothing: it returns the five
    scenarios, each under the name of its model.  Each model passes
    [validate_inputs], and its three parameters have a lower-case kind the
    sampler knows, [min_value < max_value] and a [most_likely] between the
    bounds; a run, with any generator and sample count, leaves the
    scenario's model as it was loaded. *)
Theorem sample_scenarios_are_ready :
  exists scenarios : list (string * FAIRModel.t),
    load_sample_scenarios = inr scenarios
    /\ fst <$> scenarios
       = [ "Data Breach Scenario"; "Ransomware Attack"; "DDoS Attack";
           "Insider Threat"; "Cloud Service Outage" ]
    /\ Forall (fun km => km.1 = FAIRModel.name km.2
                         /\ FAIRModel.validate_inputs km.2 = inr true
                         /\ scenario_ready km.2 = true) scenarios
    /\ forall (np : NumpyRandom) (km : string * FAIRModel.t) (n : nat)
              (g : RandomState),
         km ∈ scenarios ->
         fair_model (run_simulation (__init__ km.2 n) g).2.1 = km.2.
Proof.
  destruct load_sample_scenarios as [e|scenarios] eqn:E;
    [vm_compute in E; discriminate E|].
  exists scenarios. split; [reflexivity|].
  assert (Hs : fst <$> scenarios
               = [ "Data Breach Scenario"; "Ransomware Attack"; "DDoS Attack";
                   "Insider Threat"; "Cloud Service Outage" ]
               /\ forallb (fun km => String.eqb km.1 (FAIRModel.name km.2)
                                     && scenario_ready km.2) scenarios = true).
  { vm_compute in E. injection E as <-. split; vm_compute; reflexivity. }
  destruct Hs as [Hk Hf]. split; [exact Hk|].
  assert (HF : Forall (fun km => km.1 = FAIRModel.name km.2
                         /\ FAIRModel.validate_inputs km.2 = inr true
                         /\ scenario_ready km.2 = true) scenarios).
  { apply Forall_forall. intros km Hin.
    rewrite forallb_forall in Hf. apply list_elem_of_In in Hin.
    specialize (Hf km Hin).
    apply andb_true_iff in Hf as [H1%String.eqb_eq H3].
    split; [exact H1|]. split; [|exact H3].
    unfold scenario_ready in H3. unfold FAIRModel.validate_inputs.
    by destruct (FAIRModel.tef km.2), (FAIRModel.vulnerability km.2),
      (FAIRModel.loss_magnitude km.2). }
  split; [exact HF|].
  intros np km n g Hin. rewrite Forall_forall in HF.
  apply ready_model_unchanged. by apply HF.
Qed.

(** X14 on the example model and an empty session. *)
Lemma page_run_stores_table_and_summary_witness :
  Risk_Analysis.run_simulation (np := Standin.numpy) (pd := Standin.pandas)
    example_model 5 ∅ 0%Z
  = (inr tt,
     (example_model,
      <["simulation_summary" := Risk_Analysis.SessionValue example_summary]>
        (<["simulation_results" := Risk_Analysis.SessionTable example_table]> ∅),
      70%Z))
  /\ exists (df : DataFrame) (stats : pyval),
       MonteCarloSimulation.run_simulation (np := Standin.numpy)
         (__init__ example_model 5) 0%Z
       = (inr df, (mk example_model 5 (Some df), 70%Z))
       /\ Forall (fun c => length c.2 = 5%nat) df
       /\ get_summary_statistics (pd := Standin.pandas)
            (mk example_model 5 (Some df))
          = inr stats.
Proof.
  assert (H : Risk_Analysis.run_simulation (np := Standin.numpy)
                (pd := Standin.pandas) example_model 5 ∅ 0%Z
              = (inr tt,
                 (example_model,
                  <["simulation_summary" :=
                      Risk_Analysis.SessionValue example_summary]>
                    (<["simulation_results" :=
                         Risk_Analysis.SessionTable example_table]> ∅),
                  70%Z)))
    by (vm_compute; reflexivity).
  split; [exact H|].
  destruct (proj1 (page_run_stores_table_and_summary (np := Standin.numpy)
                     (pd := Standin.pandas) example_model 5 ∅ 0%Z) _ _ _ H)
    as (df & stats & Hrun & _ & _ & Hc & Hs & _).
  exists df, stats. split; [exact Hrun|]. split; [exact Hc|]. exact Hs.
Defined.

(** ** Further edge cases *)

Lemma getitem_other_key (k key : string) (v : pyval) (items : list (string * pyval)) :
  k <> key -> getitem (PyDict ((k, v) :: items)) key = getitem (PyDict items) key.
Proof.
  intros Hk. unfold getitem. cbn [find fst].
  by rewrite (proj2 (String.eqb_neq k key) Hk).
Qed.

(** X16. [from_dict] reads the five keys it knows and nothing else: an
    entry under any other key changes neither the model it returns nor the
    error it raises. *)
Theorem from_dict_ignores_other_keys
    (k : string) (v : pyval) (items : list (string * pyval)) :
  k <> "name" -> k <> "description" -> k <> "tef" -> k <> "vulnerability" ->
  k <> "loss_magnitude" ->
  FAIRModel.from_dict (PyDict ((k, v) :: items))
  = FAIRModel.from_dict (PyDict items).
Proof.
  intros H1 H2 H3 H4 H5. unfold FAIRModel.from_dict.
  by rewrite !getitem_other_key.
Qed.

Lemma SF64sub_diag (x : spec_float) :
  match x with S754_zero _ | S754_finite _ _ _ => true | _ => false end = true ->
  SF64sub x x = S754_zero false.
Proof.
  destruct x as [[]|[]| |s m e]; try discriminate; intros _; try reflexivity.
  unfold SF64sub, SFsub, shl_align. rewrite Z.min_id, Z.sub_diag. cbn [fst].
  reflexivity.
Qed.

Lemma float_sub_diag (x : float) :
  is_number x = true -> x - x = 0.
Proof.
  intros Hx. apply Prim2SF_inj. rewrite sub_spec.
  change (Prim2SF 0) with (S754_zero false). by apply SF64sub_diag.
Qed.

(** X17. In the lognormal branch, equal bounds whose logarithm is a number
    are no error: the spread handed to numpy's lognormal draw is exactly
    zero. *)
Theorem lognormal_equal_bounds_zero_sigma
    {np : NumpyRandom} {P : Type} `{Param P}
    (param : P) (size : nat) (g : RandomState) :
  lower (distribution param) = "lognormal" ->
  max_value param = min_value param ->
  is_number (np_log (min_value param)) = true ->
  _generate_distribution_sample param size g
  = on param
      (np_random_lognormal
         ((np_log (min_value param) + np_log (min_value param)) / 2) 0 size g).
Proof.
  intros Ek Eb Hn. unfold _generate_distribution_sample.
  rewrite Ek, Eb. cbn [String.eqb Ascii.eqb Bool.eqb].
  by rewrite (float_sub_diag _ Hn).
Qed.

(** X16 on a dictionary with an [owner] entry. *)
Lemma from_dict_ignores_other_keys_witness :
  FAIRModel.from_dict annotated_dict
  = FAIRModel.from_dict (FAIRModel.to_dict partial_model)
  /\ FAIRModel.from_dict annotated_dict = inr partial_model.
Proof.
  split; [|vm_compute; reflexivity].
  apply (from_dict_ignores_other_keys "owner" (PyStr "risk team"));
    intros K; discriminate K.
Defined.

(** X17 on a lognormal loss with both bounds at 5000. *)
Lemma lognormal_equal_bounds_zero_sigma_witness :
  lower (distribution flat_lognormal) = "lognormal"
  /\ max_value flat_lognormal = min_value flat_lognormal
  /\ is_number (Standin.log 5000) = true
  /\ _generate_distribution_sample (np := Standin.numpy) flat_lognormal 2 0%Z
     = on flat_lognormal
         (@np_random_lognormal Standin.numpy
            ((Standin.log 5000 + Standin.log 5000) / 2) 0 2%nat 0%Z).
Proof.
  assert (Hn : is_number (Standin.log 5000) = true) by (vm_compute; reflexivity).
  split; [reflexivity|]. split; [reflexivity|]. split; [exact Hn|].
  exact (lognormal_equal_bounds_zero_sigma (np := Standin.numpy)
           flat_lognormal 2 0%Z eq_refl eq_refl Hn).
Defined.
